(** * scripts/generate-icons.py: device icon generation

    A shallow embedding of the icon generator of the Starling Home Hub
    Homey app and the verification of its specification.

    - Python [str] values are [string]s holding the UTF-8 bytes of the text.
      Every character the program inspects is ASCII, and no byte of a
      multi-byte UTF-8 sequence is an ASCII byte, so scanning bytes and
      scanning code points agree.
    - A call that may raise returns a [result]; the statements of [main]
      run in the monad [M], which threads the trace of the calls made to
      the operating system and stops at the first uncaught exception.
    - [str.format] is modelled after CPython's [MarkupIterator] and
      [build_string] (Objects/stringlib/unicode_format.h). *)

From Stdlib Require Import String Ascii List Bool Arith ZArith NArith Lia.
From Stdlib Require Import DecimalString.
Import ListNotations.
Open Scope list_scope.
Open Scope string_scope.

(** ** Exceptions and results *)

Inductive exn : Type :=
| KeyError (key : string)
| IndexError (index : N)
| ValueError (msg : string)
| CalledProcessError (returncode : Z) (text : string)
    (* raised by subprocess.run(check=True) on a non-zero exit status;
       [text] is what str(e) gives *)
| OSError (text : string).
    (* FileNotFoundError, PermissionError, ...: a file operation fails or
       the program to run cannot be started *)

Inductive result (A : Type) : Type :=
| Ok (a : A)
| Raise (e : exn).
Arguments Ok {A} a.
Arguments Raise {A} e.

Definition bindR {A B} (r : result A) (k : A -> result B) : result B :=
  match r with
  | Ok a => k a
  | Raise e => Raise e
  end.

Definition is_Ok {A} (r : result A) : bool :=
  match r with Ok _ => true | Raise _ => false end.

(** ** Text helpers *)

(** String literals of this file are written with an apostrophe wherever
    the Python source has a double quote; [dq] puts the double quotes
    back.  No string of the source contains an apostrophe. *)
Definition dq_char (c : ascii) : ascii :=
  if Ascii.eqb c "'"%char then "034"%char else c.

Fixpoint dq (s : string) : string :=
  match s with
  | EmptyString => EmptyString
  | String c r => String (dq_char c) (dq r)
  end.

Definition snoc (s : string) (c : ascii) : string := s ++ String c EmptyString.

Definition is_empty (s : string) : bool :=
  match s with EmptyString => true | _ => false end.

(** [starts_with p s]: Python's [s.startswith(p)]. *)
Fixpoint starts_with (p s : string) : bool :=
  match p, s with
  | EmptyString, _ => true
  | String a p', String b s' => Ascii.eqb a b && starts_with p' s'
  | String _ _, EmptyString => false
  end.

(** [occurs sub s]: Python's [sub in s]. *)
Fixpoint occurs (sub s : string) : bool :=
  starts_with sub s ||
  match s with
  | EmptyString => false
  | String _ r => occurs sub r
  end.

(** ** str.format *)

Module Format.

(** What the markup iterator yields: literal text (here one character at a
    time), a replacement field [{name!conv:spec}], or the exception it
    raises, after which it yields nothing more. *)
Inductive markup : Type :=
| Chr (c : ascii)
| Field (name : string) (conv : option ascii) (spec : string)
| Bad (e : exn).

(** Where the iterator is in the format string. *)
Inductive state : Type :=
| Txt                                   (* in literal text *)
| Open                                  (* just read a brace that opens *)
| Close                                 (* just read a brace that closes *)
| Name (acc : string)                   (* in a field name *)
| Index (acc : string)                  (* in a field name, inside [...] *)
| Conv (name : string)                  (* just read the ! of a field *)
| ConvEnd (name : string) (cv : ascii)  (* read the conversion character *)
| Spec (name : string) (conv : option ascii) (acc : string) (count : nat)
                                        (* in a format spec, [count] braces deep *)
| Stop.                                 (* an exception was raised *)

Definition lbrace : ascii := "{"%char.
Definition rbrace : ascii := "}"%char.

Definition in_name (acc : string) (c : ascii) : state * list markup :=
  if Ascii.eqb c lbrace then
    (Stop, [Bad (ValueError "unexpected '{' in field name")])
  else if Ascii.eqb c "["%char then (Index (snoc acc c), [])
  else if Ascii.eqb c rbrace then (Txt, [Field acc None ""])
  else if Ascii.eqb c ":"%char then (Spec acc None "" 1, [])
  else if Ascii.eqb c "!"%char then (Conv acc, [])
  else (Name (snoc acc c), []).

Definition step (st : state) (c : ascii) : state * list markup :=
  match st with
  | Txt =>
      if Ascii.eqb c lbrace then (Open, [])
      else if Ascii.eqb c rbrace then (Close, [])
      else (Txt, [Chr c])
  | Open =>
      if Ascii.eqb c lbrace then (Txt, [Chr lbrace]) else in_name "" c
  | Close =>
      if Ascii.eqb c rbrace then (Txt, [Chr rbrace])
      else (Stop, [Bad (ValueError "Single '}' encountered in format string")])
  | Name acc => in_name acc c
  | Index acc =>
      if Ascii.eqb c "]"%char then (Name (snoc acc c), [])
      else (Index (snoc acc c), [])
  | Conv name => (ConvEnd name c, [])
  | ConvEnd name cv =>
      if Ascii.eqb c rbrace then (Txt, [Field name (Some cv) ""])
      else if Ascii.eqb c ":"%char then (Spec name (Some cv) "" 1, [])
      else (Stop, [Bad (ValueError "expected ':' after conversion specifier")])
  | Spec name conv acc count =>
      if Ascii.eqb c lbrace then (Spec name conv (snoc acc c) (S count), [])
      else if Ascii.eqb c rbrace then
        match count with
        | 0 | 1 => (Txt, [Field name conv acc])
        | S n => (Spec name conv (snoc acc c) n, [])
        end
      else (Spec name conv (snoc acc c) count, [])
  | Stop => (Stop, [])
  end.

(** The end of the format string. *)
Definition finish (st : state) : list markup :=
  match st with
  | Txt | Stop => []
  | Open => [Bad (ValueError "Single '{' encountered in format string")]
  | Close => [Bad (ValueError "Single '}' encountered in format string")]
  | Name _ | Index _ => [Bad (ValueError "expected '}' before end of string")]
  | Conv _ =>
      [Bad (ValueError "end of string while looking for conversion specifier")]
  | ConvEnd _ _ | Spec _ _ _ _ =>
      [Bad (ValueError "unmatched '{' in format spec")]
  end.

Fixpoint scan (st : state) (s : string) : list markup :=
  match s with
  | EmptyString => finish st
  | String c r => let (st', out) := step st c in (out ++ scan st' r)%list
  end.

Definition MarkupIterator (s : string) : list markup := scan Txt s.

(** *** Field lookup *)

(** The part of a field name before its first [.] or [[]. *)
Fixpoint first_part (name : string) : string :=
  match name with
  | EmptyString => EmptyString
  | String c r =>
      if Ascii.eqb c "."%char || Ascii.eqb c "["%char then EmptyString
      else String c (first_part r)
  end.

Definition digit_of (c : ascii) : option N :=
  let n := N_of_ascii c in
  if (48 <=? n)%N && (n <=? 57)%N then Some (n - 48)%N else None.

Definition PY_SSIZE_T_MAX : N := 9223372036854775807.

(** get_integer: [None] when [s] is not a decimal number, [Some (Raise _)]
    when it has too many digits.  Digits are the ASCII ones. *)
Fixpoint get_integer_from (acc : N) (s : string) : option (result N) :=
  match s with
  | EmptyString => Some (Ok acc)
  | String c r =>
      match digit_of c with
      | None => None
      | Some d =>
          if ((PY_SSIZE_T_MAX - d) / 10 <? acc)%N then
            Some (Raise (ValueError "Too many decimal digits in format string"))
          else get_integer_from (acc * 10 + d) r
      end
  end.

Definition get_integer (s : string) : option (result N) :=
  if is_empty s then None else get_integer_from 0 s.

Definition kwargs := list (string * string).

Fixpoint lookup (key : string) (kw : kwargs) : option string :=
  match kw with
  | [] => None
  | (k, v) :: kw' => if String.eqb key k then Some v else lookup key kw'
  end.

(** The object a field name starts from.  [format] is only ever called with
    keyword arguments, so an omitted or numeric name indexes the empty
    tuple of positional arguments. *)
Definition get_field_object (kw : kwargs) (first : string) : result string :=
  if is_empty first then Raise (IndexError 0)
  else
    match get_integer first with
    | Some (Ok n) => Raise (IndexError n)
    | Some (Raise e) => Raise e
    | None =>
        match lookup first kw with
        | Some v => Ok v
        | None => Raise (KeyError first)
        end
    end.

Section Render.

(** Attribute and index access on the looked-up string, conversions and
    the format-spec language belong to the Python runtime; they come into
    play only for a field that is more than a bare name.  [extended value
    name conv spec] stands for what the runtime does with such a field. *)
Variable extended : string -> string -> option ascii -> string -> result string.

Definition bare (name : string) (conv : option ascii) (spec : string) : bool :=
  String.eqb (first_part name) name &&
  match conv with None => true | Some _ => false end &&
  is_empty spec.

Definition render_field (kw : kwargs) (name : string) (conv : option ascii)
    (spec : string) : result string :=
  bindR (get_field_object kw (first_part name)) (fun v =>
    if bare name conv spec then Ok v else extended v name conv spec).

Fixpoint build_string (kw : kwargs) (ms : list markup) : result string :=
  match ms with
  | [] => Ok ""
  | Chr c :: ms' => bindR (build_string kw ms') (fun r => Ok (String c r))
  | Field name conv spec :: ms' =>
      bindR (render_field kw name conv spec) (fun v =>
        bindR (build_string kw ms') (fun r => Ok (v ++ r)))
  | Bad e :: _ => Raise e
  end.

(** [s.format] called with the keyword arguments [kw] *)
Definition format (s : string) (kw : kwargs) : result string :=
  build_string kw (MarkupIterator s).

End Render.

End Format.

(** ** os.path (posixpath) *)

Module os_path.

Definition sep : ascii := "/"%char.

Definition startswith_sep (s : string) : bool :=
  match s with
  | String c _ => Ascii.eqb c sep
  | EmptyString => false
  end.

Fixpoint endswith_sep (s : string) : bool :=
  match s with
  | EmptyString => false
  | String c EmptyString => Ascii.eqb c sep
  | String _ r => endswith_sep r
  end.

(** [os.path.join(a, b)] *)
Definition join (a b : string) : string :=
  if startswith_sep b then b
  else if is_empty a || endswith_sep a then a ++ b
  else a ++ String sep b.

(** [p[:p.rfind(sep) + 1]] *)
Fixpoint head (p : string) : string :=
  match p with
  | EmptyString => EmptyString
  | String c r =>
      let h := head r in
      if Ascii.eqb c sep || negb (is_empty h) then String c h else EmptyString
  end.

(** [s.rstrip(sep)] *)
Fixpoint rstrip_sep (s : string) : string :=
  match s with
  | EmptyString => EmptyString
  | String c r =>
      let r' := rstrip_sep r in
      if Ascii.eqb c sep && is_empty r' then EmptyString else String c r'
  end.

(** [os.path.dirname(p)]: the head up to the last separator, without its
    trailing separators unless it consists of separators only. *)
Definition dirname (p : string) : string :=
  let h := head p in
  if is_empty (rstrip_sep h) then h else rstrip_sep h.

End os_path.

(** ** The script's constants *)

(** Brand colors *)
Definition TEAL : string := "#44DBBD".
Definition DARK_GRAY : string := "#2F2E2E".
Definition WHITE : string := "#FFFFFF".

(** Base SVG template with white background *)
Definition SVG_TEMPLATE : string := dq "<?xml version='1.0' encoding='UTF-8'?>
<svg width='1000' height='1000' viewBox='0 0 1000 1000' xmlns='http://www.w3.org/2000/svg'>
  <!-- White background required by Homey -->
  <rect width='1000' height='1000' fill='white'/>
  <g transform='translate(500, 500)'>
    {icon_path}
  </g>
</svg>
".

(** Device icon paths, in the order of the dictionary literal (a Python
    dict iterates in insertion order). *)
Definition DEVICE_ICONS : list (string * string) := [
  ("all-devices", dq "
        <!-- Grid of devices -->
        <rect x='-350' y='-350' width='300' height='300' rx='40' fill='{teal}'/>
        <rect x='50' y='-350' width='300' height='300' rx='40' fill='{teal}'/>
        <rect x='-350' y='50' width='300' height='300' rx='40' fill='{teal}'/>
        <rect x='50' y='50' width='300' height='300' rx='40' fill='{teal}'/>
        <!-- Device symbols -->
        <circle cx='-200' cy='-200' r='60' fill='white'/>
        <rect x='100' y='-240' width='100' height='80' rx='10' fill='white'/>
        <polygon points='-200,-100 -280,50 -120,50' fill='white'/>
        <ellipse cx='200' cy='200' rx='80' ry='60' fill='white'/>
    ");
  ("blinds", dq "
        <!-- Window frame -->
        <rect x='-350' y='-400' width='700' height='800' rx='40' fill='{teal}'/>
        <!-- Blind slats -->
        <rect x='-280' y='-300' width='560' height='60' rx='10' fill='white'/>
        <rect x='-280' y='-180' width='560' height='60' rx='10' fill='white'/>
        <rect x='-280' y='-60' width='560' height='60' rx='10' fill='white'/>
        <rect x='-280' y='60' width='560' height='60' rx='10' fill='white'/>
        <rect x='-280' y='180' width='560' height='60' rx='10' fill='white'/>
        <!-- Pull cord -->
        <circle cx='200' cy='320' r='40' fill='white'/>
        <rect x='190' y='260' width='20' height='60' fill='white'/>
    ");
  ("camera", dq "
        <!-- Camera body -->
        <rect x='-350' y='-200' width='500' height='350' rx='50' fill='{teal}'/>
        <!-- Lens housing -->
        <circle cx='-100' cy='-25' r='130' fill='{dark}'/>
        <circle cx='-100' cy='-25' r='90' fill='white'/>
        <circle cx='-100' cy='-25' r='50' fill='{teal}'/>
        <!-- Side mount -->
        <rect x='150' y='-120' width='150' height='200' rx='30' fill='{teal}'/>
        <!-- Base/stand -->
        <rect x='-200' y='150' width='250' height='150' rx='20' fill='{dark}'/>
        <!-- LED indicator -->
        <circle cx='80' cy='-120' r='25' fill='#FF5555'/>
    ");
  ("diffuser", dq "
        <!-- Diffuser body -->
        <path d='M -200,350 Q -280,0 0,-300 Q 280,0 200,350 Z' fill='{teal}'/>
        <!-- Base -->
        <ellipse cx='0' cy='350' rx='250' ry='100' fill='{dark}'/>
        <!-- Mist particles -->
        <circle cx='-80' cy='-350' r='40' fill='{teal}' opacity='0.7'/>
        <circle cx='60' cy='-400' r='50' fill='{teal}' opacity='0.5'/>
        <circle cx='-30' cy='-450' r='35' fill='{teal}' opacity='0.6'/>
        <circle cx='100' cy='-480' r='30' fill='{teal}' opacity='0.4'/>
        <!-- Opening -->
        <ellipse cx='0' cy='-280' rx='80' ry='40' fill='white'/>
    ");
  ("doorbell", dq "
        <!-- Doorbell body -->
        <rect x='-180' y='-400' width='360' height='700' rx='60' fill='{teal}'/>
        <!-- Camera lens -->
        <circle cx='0' cy='-200' r='100' fill='{dark}'/>
        <circle cx='0' cy='-200' r='65' fill='white'/>
        <circle cx='0' cy='-200' r='35' fill='{dark}'/>
        <!-- Button -->
        <rect x='-80' y='80' width='160' height='160' rx='30' fill='white'/>
        <circle cx='0' cy='160' r='50' fill='{teal}'/>
        <!-- Speaker grille -->
        <rect x='-100' y='-50' width='200' height='10' rx='5' fill='{dark}'/>
        <rect x='-100' y='-25' width='200' height='10' rx='5' fill='{dark}'/>
        <rect x='-100' y='0' width='200' height='10' rx='5' fill='{dark}'/>
    ");
  ("fan", dq "
        <!-- Fan blades -->
        <ellipse cx='0' cy='-250' rx='80' ry='200' fill='{teal}'/>
        <ellipse cx='0' cy='-250' rx='80' ry='200' fill='{teal}' transform='rotate(72)'/>
        <ellipse cx='0' cy='-250' rx='80' ry='200' fill='{teal}' transform='rotate(144)'/>
        <ellipse cx='0' cy='-250' rx='80' ry='200' fill='{teal}' transform='rotate(216)'/>
        <ellipse cx='0' cy='-250' rx='80' ry='200' fill='{teal}' transform='rotate(288)'/>
        <!-- Center hub -->
        <circle cx='0' cy='0' r='100' fill='{dark}'/>
        <circle cx='0' cy='0' r='60' fill='white'/>
    ");
  ("garage", dq "
        <!-- Garage outline -->
        <path d='M -400,350 L -400,-150 L 0,-350 L 400,-150 L 400,350 Z' fill='{teal}'/>
        <!-- Door panels -->
        <rect x='-320' y='-50' width='640' height='100' rx='10' fill='white'/>
        <rect x='-320' y='80' width='640' height='100' rx='10' fill='white'/>
        <rect x='-320' y='210' width='640' height='100' rx='10' fill='white'/>
        <!-- Window -->
        <rect x='-100' y='-200' width='200' height='80' rx='10' fill='white'/>
        <!-- Handle -->
        <circle cx='280' cy='260' r='30' fill='{dark}'/>
    ");
  ("heater-cooler", dq "
        <!-- Unit body -->
        <rect x='-350' y='-350' width='700' height='600' rx='50' fill='{teal}'/>
        <!-- Vents -->
        <rect x='-280' y='-250' width='560' height='40' rx='10' fill='white'/>
        <rect x='-280' y='-170' width='560' height='40' rx='10' fill='white'/>
        <rect x='-280' y='-90' width='560' height='40' rx='10' fill='white'/>
        <rect x='-280' y='-10' width='560' height='40' rx='10' fill='white'/>
        <rect x='-280' y='70' width='560' height='40' rx='10' fill='white'/>
        <!-- Control panel -->
        <rect x='-200' y='170' width='400' height='60' rx='15' fill='{dark}'/>
        <!-- Temperature display -->
        <circle cx='0' cy='350' r='80' fill='white'/>
        <text x='0' y='370' text-anchor='middle' font-size='80' font-family='Arial' font-weight='bold' fill='{teal}'>72°</text>
    ");
  ("home-away", dq "
        <!-- House shape -->
        <path d='M 0,-400 L -380,-50 L -380,380 L 380,380 L 380,-50 Z' fill='{teal}'/>
        <!-- Roof accent -->
        <path d='M 0,-400 L -420,-20 L -380,-50 L 0,-350 L 380,-50 L 420,-20 Z' fill='{dark}'/>
        <!-- Door -->
        <rect x='-100' y='50' width='200' height='330' rx='20' fill='white'/>
        <circle cx='60' cy='220' r='25' fill='{teal}'/>
        <!-- Window -->
        <rect x='-280' y='-20' width='140' height='140' rx='15' fill='white'/>
        <rect x='140' y='-20' width='140' height='140' rx='15' fill='white'/>
    ");
  ("humidifier", dq "
        <!-- Tank/body -->
        <rect x='-250' y='-150' width='500' height='500' rx='60' fill='{teal}'/>
        <!-- Top cap -->
        <ellipse cx='0' cy='-200' rx='180' ry='80' fill='{dark}'/>
        <!-- Water droplets -->
        <path d='M -120,-300 Q -120,-400 -60,-450 Q 0,-400 0,-300 Q -60,-260 -120,-300 Z' fill='white'/>
        <path d='M 40,-330 Q 40,-430 100,-480 Q 160,-430 160,-330 Q 100,-290 40,-330 Z' fill='white'/>
        <!-- Water level indicator -->
        <rect x='-180' y='50' width='360' height='200' rx='20' fill='white' opacity='0.5'/>
        <rect x='-180' y='150' width='360' height='100' rx='20' fill='white'/>
        <!-- Mist output -->
        <ellipse cx='0' cy='-200' rx='60' ry='30' fill='white'/>
    ");
  ("kettle", dq "
        <!-- Kettle body -->
        <path d='M -220,300 Q -280,0 0,-300 Q 280,0 220,300 Z' fill='{teal}'/>
        <!-- Base -->
        <ellipse cx='0' cy='300' rx='250' ry='80' fill='{dark}'/>
        <!-- Handle -->
        <path d='M 200,-100 Q 380,-100 380,100 Q 380,250 250,280'
              stroke='{dark}' stroke-width='50' fill='none' stroke-linecap='round'/>
        <!-- Lid -->
        <ellipse cx='0' cy='-280' rx='120' ry='50' fill='{dark}'/>
        <ellipse cx='0' cy='-300' rx='80' ry='35' fill='white'/>
        <!-- Steam -->
        <path d='M -50,-380 Q -80,-450 -40,-500' stroke='white' stroke-width='25' fill='none' stroke-linecap='round'/>
        <path d='M 30,-380 Q 60,-470 20,-530' stroke='white' stroke-width='25' fill='none' stroke-linecap='round'/>
    ");
  ("light", dq "
        <!-- Bulb glass -->
        <circle cx='0' cy='-100' r='280' fill='{teal}'/>
        <!-- Light rays -->
        <rect x='-20' y='-450' width='40' height='80' rx='20' fill='white'/>
        <rect x='-20' y='-450' width='40' height='80' rx='20' fill='white' transform='rotate(45)'/>
        <rect x='-20' y='-450' width='40' height='80' rx='20' fill='white' transform='rotate(-45)'/>
        <rect x='-20' y='-450' width='40' height='80' rx='20' fill='white' transform='rotate(90)'/>
        <rect x='-20' y='-450' width='40' height='80' rx='20' fill='white' transform='rotate(-90)'/>
        <!-- Inner glow -->
        <circle cx='0' cy='-100' r='180' fill='white' opacity='0.6'/>
        <circle cx='0' cy='-100' r='100' fill='white'/>
        <!-- Base/screw -->
        <rect x='-120' y='180' width='240' height='50' rx='10' fill='{dark}'/>
        <rect x='-100' y='230' width='200' height='40' rx='8' fill='white'/>
        <rect x='-80' y='270' width='160' height='40' rx='8' fill='{dark}'/>
        <rect x='-60' y='310' width='120' height='50' rx='25' fill='white'/>
    ");
  ("lock", dq "
        <!-- Lock body -->
        <rect x='-250' y='-100' width='500' height='450' rx='50' fill='{teal}'/>
        <!-- Shackle -->
        <path d='M -150,-100 L -150,-250 Q -150,-400 0,-400 Q 150,-400 150,-250 L 150,-100'
              stroke='{dark}' stroke-width='70' fill='none' stroke-linecap='round'/>
        <!-- Keyhole -->
        <circle cx='0' cy='80' r='80' fill='white'/>
        <rect x='-30' y='80' width='60' height='150' rx='15' fill='white'/>
        <!-- Keyhole detail -->
        <circle cx='0' cy='80' r='40' fill='{teal}'/>
    ");
  ("outlet", dq "
        <!-- Outlet plate -->
        <rect x='-300' y='-380' width='600' height='760' rx='60' fill='{teal}'/>
        <!-- Outlet face -->
        <rect x='-220' y='-300' width='440' height='500' rx='40' fill='white'/>
        <!-- Plug holes -->
        <rect x='-120' y='-180' width='60' height='120' rx='15' fill='{dark}'/>
        <rect x='60' y='-180' width='60' height='120' rx='15' fill='{dark}'/>
        <!-- Ground hole -->
        <circle cx='0' cy='60' r='40' fill='{dark}'/>
        <!-- Screw holes -->
        <circle cx='0' cy='-250' r='20' fill='{teal}'/>
        <circle cx='0' cy='150' r='20' fill='{teal}'/>
    ");
  ("purifier", dq "
        <!-- Purifier body -->
        <rect x='-280' y='-380' width='560' height='760' rx='50' fill='{teal}'/>
        <!-- Air intake vents -->
        <ellipse cx='0' cy='-220' rx='160' ry='60' fill='{dark}'/>
        <ellipse cx='0' cy='-100' rx='160' ry='60' fill='{dark}'/>
        <ellipse cx='0' cy='20' rx='160' ry='60' fill='{dark}'/>
        <!-- Control panel -->
        <rect x='-180' y='140' width='360' height='100' rx='20' fill='white'/>
        <!-- Air quality indicator -->
        <circle cx='0' cy='300' r='50' fill='white'/>
        <circle cx='0' cy='300' r='30' fill='#55CC55'/>
    ");
  ("robot", dq "
        <!-- Robot body (top view) -->
        <circle cx='0' cy='0' r='380' fill='{teal}'/>
        <circle cx='0' cy='0' r='300' fill='{dark}'/>
        <circle cx='0' cy='0' r='220' fill='white'/>
        <!-- Buttons/display -->
        <circle cx='0' cy='-60' r='60' fill='{teal}'/>
        <rect x='-100' y='40' width='200' height='60' rx='15' fill='{teal}'/>
        <!-- Direction indicator (forward) -->
        <polygon points='0,-350 -50,-280 50,-280' fill='white'/>
        <!-- Bumper sensor -->
        <path d='M -300,-200 Q -380,0 -300,200' stroke='white' stroke-width='20' fill='none'/>
        <path d='M 300,-200 Q 380,0 300,200' stroke='white' stroke-width='20' fill='none'/>
    ");
  ("sensor", dq "
        <!-- Sensor body -->
        <circle cx='0' cy='0' r='250' fill='{teal}'/>
        <circle cx='0' cy='0' r='160' fill='white'/>
        <circle cx='0' cy='0' r='80' fill='{teal}'/>
        <!-- Detection waves left -->
        <path d='M -300,-150 Q -420,-150 -420,0 Q -420,150 -300,150'
              stroke='{teal}' stroke-width='35' fill='none' stroke-linecap='round'/>
        <path d='M -350,-100 Q -450,-100 -450,0 Q -450,100 -350,100'
              stroke='{teal}' stroke-width='35' fill='none' stroke-linecap='round' opacity='0.6'/>
        <!-- Detection waves right -->
        <path d='M 300,-150 Q 420,-150 420,0 Q 420,150 300,150'
              stroke='{teal}' stroke-width='35' fill='none' stroke-linecap='round'/>
        <path d='M 350,-100 Q 450,-100 450,0 Q 450,100 350,100'
              stroke='{teal}' stroke-width='35' fill='none' stroke-linecap='round' opacity='0.6'/>
    ");
  ("smoke-co-detector", dq "
        <!-- Detector body -->
        <circle cx='0' cy='0' r='380' fill='{teal}'/>
        <circle cx='0' cy='0' r='280' fill='white'/>
        <circle cx='0' cy='0' r='180' fill='{teal}'/>
        <!-- Center indicator -->
        <circle cx='0' cy='0' r='80' fill='white'/>
        <circle cx='0' cy='0' r='50' fill='#FF5555'/>
        <!-- Vent holes -->
        <circle cx='-200' cy='-200' r='35' fill='{dark}'/>
        <circle cx='200' cy='-200' r='35' fill='{dark}'/>
        <circle cx='-200' cy='200' r='35' fill='{dark}'/>
        <circle cx='200' cy='200' r='35' fill='{dark}'/>
        <circle cx='0' cy='-280' r='30' fill='{dark}'/>
        <circle cx='0' cy='280' r='30' fill='{dark}'/>
    ");
  ("switch", dq "
        <!-- Switch plate -->
        <rect x='-220' y='-380' width='440' height='760' rx='50' fill='{teal}'/>
        <!-- Toggle area -->
        <rect x='-150' y='-280' width='300' height='400' rx='30' fill='white'/>
        <!-- Toggle switch (on position) -->
        <rect x='-100' y='-230' width='200' height='150' rx='20' fill='{teal}'/>
        <!-- Toggle indicator -->
        <circle cx='0' cy='-155' r='30' fill='white'/>
        <!-- Label area -->
        <rect x='-100' y='180' width='200' height='60' rx='15' fill='white'/>
        <!-- Screw holes -->
        <circle cx='0' cy='-330' r='25' fill='{dark}'/>
        <circle cx='0' cy='330' r='25' fill='{dark}'/>
    ");
  ("thermostat", dq "
        <!-- Thermostat body -->
        <circle cx='0' cy='0' r='380' fill='{teal}'/>
        <circle cx='0' cy='0' r='320' fill='{dark}'/>
        <circle cx='0' cy='0' r='260' fill='white'/>
        <!-- Temperature display -->
        <text x='0' y='30' text-anchor='middle' font-size='200' font-family='Arial' font-weight='bold' fill='{dark}'>72</text>
        <text x='120' y='-40' font-size='60' font-family='Arial' fill='{dark}'>°F</text>
        <!-- Mode indicator -->
        <circle cx='0' cy='140' r='30' fill='{teal}'/>
        <!-- Outer ring markers -->
        <rect x='-10' y='-370' width='20' height='40' rx='5' fill='white'/>
        <rect x='-10' y='-370' width='20' height='40' rx='5' fill='white' transform='rotate(30)'/>
        <rect x='-10' y='-370' width='20' height='40' rx='5' fill='white' transform='rotate(60)'/>
        <rect x='-10' y='-370' width='20' height='40' rx='5' fill='white' transform='rotate(90)'/>
        <rect x='-10' y='-370' width='20' height='40' rx='5' fill='white' transform='rotate(-30)'/>
        <rect x='-10' y='-370' width='20' height='40' rx='5' fill='white' transform='rotate(-60)'/>
        <rect x='-10' y='-370' width='20' height='40' rx='5' fill='white' transform='rotate(-90)'/>
    ");
  ("valve", dq "
        <!-- Pipes -->
        <rect x='-450' y='-80' width='350' height='160' rx='20' fill='{dark}'/>
        <rect x='100' y='-80' width='350' height='160' rx='20' fill='{dark}'/>
        <!-- Valve body -->
        <circle cx='0' cy='0' r='180' fill='{teal}'/>
        <circle cx='0' cy='0' r='120' fill='white'/>
        <!-- Handle stem -->
        <rect x='-30' y='-350' width='60' height='180' rx='15' fill='{dark}'/>
        <!-- Handle wheel -->
        <ellipse cx='0' cy='-350' rx='150' ry='60' fill='{teal}'/>
        <ellipse cx='0' cy='-350' rx='100' ry='40' fill='white'/>
        <!-- Flow indicator arrows -->
        <polygon points='-350,0 -280,-40 -280,40' fill='white'/>
        <polygon points='350,0 280,-40 280,40' fill='white'/>
    ")
].

(** [str(n)] for a Python int. *)
Definition str_int (n : Z) : string := NilEmpty.string_of_int (Z.to_int n).

(** ** Calls to the operating system *)

Inductive call : Type :=
| os_makedirs (path : string)               (* os.makedirs(path, exist_ok=True) *)
| write_file (path content : string)        (* with open(path, "w") as f: f.write(content) *)
| print (line : string)
| subprocess_run (argv : list string)       (* subprocess.run(argv, check=True, capture_output=True) *)
| os_remove (path : string).

(** A trace lists the calls made so far, each with the exception it raised
    ([None] when it returned). *)
Definition trace : Type := list (call * option exn).

(** The world decides, from what happened so far, whether a call returns
    or raises. *)
Definition world : Type := trace -> call -> option exn.

Definition M (A : Type) : Type := trace -> result A * trace.

Definition ret {A} (a : A) : M A := fun tr => (Ok a, tr).

Definition bind {A B} (m : M A) (k : A -> M B) : M B :=
  fun tr =>
    match m tr with
    | (Ok a, tr') => k a tr'
    | (Raise e, tr') => (Raise e, tr')
    end.

Definition lift {A} (r : result A) : M A := fun tr => (r, tr).

Notation "x <- m ;; k" := (bind m (fun x => k))
  (at level 61, m at next level, right associativity).
Notation "m ;; k" := (bind m (fun _ => k))
  (at level 61, right associativity).

Fixpoint for_each {A} (xs : list A) (body : A -> M unit) : M unit :=
  match xs with
  | [] => ret tt
  | x :: xs' => body x ;; for_each xs' body
  end.

(** [try: body  except subprocess.CalledProcessError as e: handler] *)
Definition try_except_CalledProcessError {A} (body : M A)
    (handler : Z -> string -> M A) : M A :=
  fun tr =>
    match body tr with
    | (Raise (CalledProcessError returncode text), tr') =>
        handler returncode text tr'
    | r => r
    end.

Section Script.

Variable extended : string -> string -> option ascii -> string -> result string.
Variable script : string.       (* os.path.abspath(__file__) *)
Variable w : world.

Definition do (c : call) : M unit :=
  fun tr =>
    match w tr c with
    | None => (Ok tt, tr ++ [(c, None)])%list
    | Some e => (Raise e, tr ++ [(c, Some e)])%list
    end.

(** Generate SVG content for a device icon. *)
Definition generate_svg (device_name icon_path : string) : result string :=
  bindR (Format.format extended icon_path [("teal", TEAL); ("dark", DARK_GRAY)])
    (fun icon_with_colors =>
       Format.format extended SVG_TEMPLATE [("icon_path", icon_with_colors)]).

Definition sizes : list (string * Z) :=
  [("small", 75%Z); ("large", 500%Z); ("xlarge", 1000%Z)].

Definition rsvg_convert (size : Z) (svg_file png_file : string) : list string :=
  ["rsvg-convert"; "-w"; str_int size; "-h"; str_int size; svg_file; "-o"; png_file].

(** The body of the loop over [sizes]. *)
Definition convert (images_path svg_file : string) (sz : string * Z) : M unit :=
  let '(size_name, size) := sz in
  let png_file := os_path.join images_path (size_name ++ ".png") in
  try_except_CalledProcessError
    (do (subprocess_run (rsvg_convert size svg_file png_file)) ;;
     do (print ("  Created " ++ size_name ++ ".png (" ++ str_int size ++ "x"
                ++ str_int size ++ ")")))
    (fun _ text =>
       do (print ("  ERROR creating " ++ size_name ++ ".png: " ++ text))).

Definition base_dir : string := os_path.dirname (os_path.dirname script).
Definition drivers_dir : string := os_path.join base_dir "drivers".

Definition images_path_of (device_name : string) : string :=
  let driver_path := os_path.join drivers_dir device_name in
  os_path.join (os_path.join driver_path "assets") "images".

(** The body of the loop over the icons. *)
Definition generate (icon : string * string) : M unit :=
  let '(device_name, icon_path) := icon in
  let images_path := images_path_of device_name in
  do (os_makedirs images_path) ;;
  svg_content <- lift (generate_svg device_name icon_path) ;;
  let svg_file := os_path.join images_path "icon.svg" in
  do (write_file svg_file svg_content) ;;
  do (print ("Created SVG for " ++ device_name)) ;;
  for_each sizes (convert images_path svg_file) ;;
  do (os_remove svg_file).

Definition main_over (icons : list (string * string)) : M unit :=
  for_each icons generate.

Definition main : M unit := main_over DEVICE_ICONS.

End Script.

(** * Properties of str.format *)

Module FormatFacts.
Import Format.

Definition is_brace (c : ascii) : bool :=
  Ascii.eqb c lbrace || Ascii.eqb c rbrace.

(** Text without braces. *)
Fixpoint plain (s : string) : bool :=
  match s with
  | EmptyString => true
  | String c r => negb (is_brace c) && plain r
  end.

Definition literal (s : string) : list markup :=
  map Chr (list_ascii_of_string s).

Lemma plain_app (a b : string) : plain (a ++ b) = plain a && plain b.
Proof.
  induction a as [|c a IH]; simpl; [reflexivity|].
  rewrite IH. apply andb_assoc.
Qed.

Lemma step_plain (c : ascii) : is_brace c = false -> step Txt c = (Txt, [Chr c]).
Proof.
  unfold is_brace. intros H. apply orb_false_iff in H as [Hl Hr].
  simpl. rewrite Hl, Hr. reflexivity.
Qed.

Lemma scan_cons (st : state) (c : ascii) (r : string) :
  scan st (String c r) = (snd (step st c) ++ scan (fst (step st c)) r)%list.
Proof. simpl. destruct (step st c); reflexivity. Qed.

(** Text without braces is yielded as it stands. *)
Lemma scan_plain (s r : string) :
  plain s = true -> scan Txt (s ++ r) = (literal s ++ scan Txt r)%list.
Proof.
  induction s as [|c s IH]; intros H; [reflexivity|].
  cbn [plain] in H. apply andb_true_iff in H as [Hc Hs].
  apply negb_true_iff in Hc.
  cbn [append]. rewrite scan_cons, (step_plain c Hc). cbn [fst snd].
  rewrite (IH Hs). reflexivity.
Qed.

(** A bare field is yielded as a field, whatever follows. *)
Lemma scan_teal (r : string) :
  scan Txt ("{teal}" ++ r) = Field "teal" None "" :: scan Txt r.
Proof. reflexivity. Qed.

Lemma scan_dark (r : string) :
  scan Txt ("{dark}" ++ r) = Field "dark" None "" :: scan Txt r.
Proof. reflexivity. Qed.

Section Build.

Variable extended : string -> string -> option ascii -> string -> result string.
Variable kw : kwargs.

Lemma build_literal (s : string) (ms : list markup) :
  build_string extended kw (literal s ++ ms)
  = bindR (build_string extended kw ms) (fun r => Ok (s ++ r)).
Proof.
  induction s as [|c s IH]; simpl.
  - destruct (build_string extended kw ms); reflexivity.
  - unfold literal in IH. rewrite IH.
    destruct (build_string extended kw ms); reflexivity.
Qed.

End Build.

(** The names bound by [generate_svg]. *)
Definition colors : kwargs := [("teal", TEAL); ("dark", DARK_GRAY)].

Definition recognized (name : string) : bool :=
  String.eqb name "teal" || String.eqb name "dark".

(** A field whose name starts from something else than the two colors. *)
Definition foreign (m : markup) : bool :=
  match m with
  | Field name _ _ => negb (recognized (first_part name))
  | _ => false
  end.

(** No name but the two colors is bound. *)
Lemma lookup_colors (key : string) :
  recognized key = false -> lookup key colors = None.
Proof.
  unfold recognized, colors. simpl. intros H.
  apply orb_false_iff in H as [Ht Hd]. now rewrite Ht, Hd.
Qed.

Lemma get_field_object_foreign (first : string) :
  recognized first = false -> exists e, get_field_object colors first = Raise e.
Proof.
  intros H. unfold get_field_object.
  destruct (is_empty first); [eauto|].
  destruct (get_integer first) as [[n|e]|]; eauto.
  rewrite (lookup_colors first H). eauto.
Qed.

(** Formatting stops with an exception at the latest at a foreign field. *)
Lemma build_string_foreign extended (ms : list markup) :
  existsb foreign ms = true ->
  exists e, build_string extended colors ms = Raise e.
Proof.
  induction ms as [|m ms IH]; simpl; [discriminate|].
  intros H. apply orb_true_iff in H. destruct m as [c|name conv spec|e].
  - destruct H as [H|H]; [discriminate|].
    destruct (IH H) as [e He]. rewrite He. simpl. eauto.
  - destruct H as [H|H].
    + simpl in H. apply negb_true_iff in H.
      destruct (get_field_object_foreign _ H) as [e He].
      unfold render_field. rewrite He. simpl. eauto.
    + destruct (IH H) as [e He].
      destruct (render_field extended colors name conv spec); simpl; eauto.
      rewrite He. simpl. eauto.
  - eauto.
Qed.

(** A markup sequence is clean when it raises nothing and its fields are
    the two colors as bare names. *)
Definition clean_markup (m : markup) : bool :=
  match m with
  | Chr _ => true
  | Field name conv spec => bare name conv spec && recognized name
  | Bad _ => false
  end.

Definition color_of (name : string) : string :=
  if String.eqb name "teal" then TEAL else DARK_GRAY.

Fixpoint substituted (ms : list markup) : string :=
  match ms with
  | [] => ""
  | Chr c :: ms' => String c (substituted ms')
  | Field name _ _ :: ms' => color_of name ++ substituted ms'
  | Bad _ :: _ => ""
  end.

Lemma build_string_clean extended (ms : list markup) :
  forallb clean_markup ms = true ->
  build_string extended colors ms = Ok (substituted ms).
Proof.
  induction ms as [|m ms IH]; simpl; [reflexivity|].
  intros H. apply andb_true_iff in H as [Hm Hms].
  destruct m as [c|name conv spec|e]; simpl in Hm; [| |discriminate].
  - now rewrite (IH Hms).
  - apply andb_true_iff in Hm as [Hb Hr].
    unfold bare in Hb. apply andb_true_iff in Hb as [Hb Hs].
    apply andb_true_iff in Hb as [Hf Hc].
    destruct conv; [discriminate|]. destruct spec; [|discriminate].
    apply String.eqb_eq in Hf.
    unfold recognized in Hr. apply orb_true_iff in Hr.
    assert (Hn : name = "teal" \/ name = "dark")
      by (destruct Hr as [Hr|Hr]; apply String.eqb_eq in Hr; auto).
    rewrite (IH Hms).
    destruct Hn as [-> | ->]; reflexivity.
Qed.

End FormatFacts.

(** * The renderer *)

Module Renderer.
Import Format FormatFacts.

Definition nl : string := String "010"%char EmptyString.

(** The parts of a rendered document. *)
Definition xml_declaration : string := dq "<?xml version='1.0' encoding='UTF-8'?>".
Definition canvas_open : string :=
  dq "<svg width='1000' height='1000' viewBox='0 0 1000 1000' xmlns='http://www.w3.org/2000/svg'>".
Definition background_note : string := "<!-- White background required by Homey -->".
Definition background : string := dq "<rect width='1000' height='1000' fill='white'/>".
Definition group_open : string := dq "<g transform='translate(500, 500)'>".
Definition group_close : string := "</g>".
Definition canvas_close : string := "</svg>".

(** The document around the shape markup [shape]: the canvas holds the
    background rectangle, then the translated group that wraps [shape]. *)
Definition document (shape : string) : string :=
  xml_declaration ++ nl ++
  canvas_open ++ nl ++
  "  " ++ background_note ++ nl ++
  "  " ++ background ++ nl ++
  "  " ++ group_open ++ nl ++
  "    " ++ shape ++ nl ++
  "  " ++ group_close ++ nl ++
  canvas_close ++ nl.

(** A shape fragment written with the two color placeholders only. *)
Inductive piece : Type :=
| Text (s : string)     (* markup without braces *)
| Primary               (* the placeholder of the primary color *)
| Accent.               (* the placeholder of the accent color *)

Definition source (p : piece) : string :=
  match p with
  | Text s => s
  | Primary => "{teal}"
  | Accent => "{dark}"
  end.

Definition colorized (p : piece) : string :=
  match p with
  | Text s => s
  | Primary => "#44DBBD"
  | Accent => "#2F2E2E"
  end.

Definition text_of (f : piece -> string) (ps : list piece) : string :=
  fold_right append "" (map f ps).

Definition brace_free (p : piece) : bool :=
  match p with
  | Text s => plain s
  | _ => true
  end.

(** The fragment, as the markup iterator sees it, has a placeholder
    outside the two recognized names. *)
Definition has_foreign_placeholder (fragment : string) : bool :=
  existsb foreign (MarkupIterator fragment).

(** The fragment is well formed and uses the two placeholders only. *)
Definition clean (fragment : string) : bool :=
  forallb clean_markup (MarkupIterator fragment).

Section Facts.

Variable extended : string -> string -> option ascii -> string -> result string.

Lemma template_format (shape : string) :
  format extended SVG_TEMPLATE [("icon_path", shape)] = Ok (document shape).
Proof. vm_compute. reflexivity. Qed.

Lemma generate_svg_unfold (device_name icon_path : string) :
  generate_svg extended device_name icon_path
  = bindR (format extended icon_path colors) (fun c => Ok (document c)).
Proof.
  unfold generate_svg. fold colors.
  destruct (format extended icon_path colors) as [c|e]; simpl; [|reflexivity].
  apply template_format.
Qed.

Lemma build_teal (ms : list markup) :
  build_string extended colors (Field "teal" None "" :: ms)
  = bindR (build_string extended colors ms) (fun r => Ok ("#44DBBD" ++ r)).
Proof. reflexivity. Qed.

Lemma build_dark (ms : list markup) :
  build_string extended colors (Field "dark" None "" :: ms)
  = bindR (build_string extended colors ms) (fun r => Ok ("#2F2E2E" ++ r)).
Proof. reflexivity. Qed.

Lemma format_pieces (ps : list piece) :
  forallb brace_free ps = true ->
  format extended (text_of source ps) colors = Ok (text_of colorized ps).
Proof.
  unfold format, MarkupIterator, text_of.
  induction ps as [|p ps IH]; intros H; [reflexivity|].
  cbn [forallb] in H. apply andb_true_iff in H as [Hp Hps].
  specialize (IH Hps). cbn [map fold_right].
  destruct p as [s| |]; cbn [source colorized].
  - rewrite (scan_plain s _ Hp), build_literal, IH. reflexivity.
  - rewrite scan_teal, build_teal, IH. reflexivity.
  - rewrite scan_dark, build_dark, IH. reflexivity.
Qed.

Lemma plain_pieces (ps : list piece) :
  forallb brace_free ps = true -> plain (text_of colorized ps) = true.
Proof.
  unfold text_of. induction ps as [|p ps IH]; intros H; [reflexivity|].
  cbn [forallb] in H. apply andb_true_iff in H as [Hp Hps].
  cbn [map fold_right]. rewrite plain_app, (IH Hps), andb_true_r.
  destruct p; [exact Hp | reflexivity | reflexivity].
Qed.

Lemma document_split (shape : string) :
  document shape
  = (xml_declaration ++ nl ++ canvas_open ++ nl ++ "  " ++ background_note ++ nl
     ++ "  " ++ background ++ nl ++ "  " ++ group_open ++ nl ++ "    ")
    ++ shape ++ (nl ++ "  " ++ group_close ++ nl ++ canvas_close ++ nl).
Proof. vm_compute. reflexivity. Qed.

Lemma plain_document (shape : string) : plain (document shape) = plain shape.
Proof.
  rewrite document_split, !plain_app.
  match goal with
  | |- ?a && (_ && ?b) = _ => change a with true; change b with true
  end.
  rewrite andb_true_r. reflexivity.
Qed.

Lemma generate_svg_clean (device_name icon_path : string) :
  clean icon_path = true ->
  generate_svg extended device_name icon_path
  = Ok (document (substituted (MarkupIterator icon_path))).
Proof.
  intros H. rewrite generate_svg_unfold. unfold format.
  now rewrite (build_string_clean extended _ H).
Qed.

Lemma generate_svg_foreign (device_name icon_path : string) :
  has_foreign_placeholder icon_path = true ->
  exists e, generate_svg extended device_name icon_path = Raise e.
Proof.
  intros H. rewrite generate_svg_unfold. unfold format.
  destruct (build_string_foreign extended _ H) as [e He].
  rewrite He. simpl. eauto.
Qed.

End Facts.

Lemma catalog_clean : forallb (fun icon => clean (snd icon)) DEVICE_ICONS = true.
Proof. vm_compute. reflexivity. Qed.

End Renderer.

(** * The orchestrator *)

Module Orchestrator.
Import Renderer.

Definition calls (tr : trace) : list call := map fst tr.

(** The lines printed for each size are indented by two spaces. *)
Definition is_report (c : call) : bool :=
  match c with print line => starts_with "  " line | _ => false end.

(** The steps of a trace: its calls without the report lines. *)
Definition steps (tr : trace) : list call :=
  filter (fun c => negb (is_report c)) (calls tr).

Definition announced (cs : list call) : list string :=
  flat_map (fun c => match c with print line => [line] | _ => [] end) cs.

(** The command lines of the processes a trace started or tried to start. *)
Definition run_args (cs : list call) : list (list string) :=
  flat_map (fun c => match c with subprocess_run argv => [argv] | _ => [] end) cs.

Definition removed (cs : list call) : list string :=
  flat_map (fun c => match c with os_remove path => [path] | _ => [] end) cs.

Definition made (cs : list call) : list string :=
  flat_map (fun c => match c with os_makedirs path => [path] | _ => [] end) cs.

Lemma steps_app (a b : trace) : steps (a ++ b)%list = (steps a ++ steps b)%list.
Proof. unfold steps, calls. now rewrite map_app, filter_app. Qed.

Lemma run_args_steps (tr : trace) : run_args (steps tr) = run_args (calls tr).
Proof.
  unfold steps. induction (calls tr) as [|c cs IH]; [reflexivity|].
  cbn [filter]. destruct (is_report c) eqn:E; cbn [negb].
  - destruct c; try discriminate. exact IH.
  - unfold run_args. cbn [flat_map]. f_equal. exact IH.
Qed.

(** The only thing that goes wrong in this world is the rasterizer exiting
    with a non-zero status. *)
Definition tool_exit_only (w : world) : Prop :=
  forall tr c e, w tr c = Some e ->
    (exists argv, c = subprocess_run argv) /\
    (exists returncode text, e = CalledProcessError returncode text).

Section Run.

Variable extended : string -> string -> option ascii -> string -> result string.
Variable script : string.
Variable w : world.

Definition svg_file_of (name : string) : string :=
  os_path.join (images_path_of script name) "icon.svg".

Definition png_file_of (name size_name : string) : string :=
  os_path.join (images_path_of script name) (size_name ++ ".png").

Definition conversion (name : string) (sz : string * Z) : call :=
  subprocess_run (rsvg_convert (snd sz) (svg_file_of name) (png_file_of name (fst sz))).

(** The text [generate_svg] returns for an icon that renders. *)
Definition svg_text (icon : string * string) : string :=
  match generate_svg extended (fst icon) (snd icon) with
  | Ok text => text
  | Raise _ => ""
  end.

(** What is to be done for one icon, and for all of them. *)
Definition icon_plan (icon : string * string) : list call :=
  let name := fst icon in
  [ os_makedirs (images_path_of script name);
    write_file (svg_file_of name) (svg_text icon);
    print ("Created SVG for " ++ name);
    conversion name ("small", 75%Z);
    conversion name ("large", 500%Z);
    conversion name ("xlarge", 1000%Z);
    os_remove (svg_file_of name) ].

Definition plan (icons : list (string * string)) : list call :=
  flat_map icon_plan icons.

(** [follows m p]: from any trace, [m] takes the steps of [p] in order,
    all of them if it returns; it does return in a world where only the
    rasterizer's exit status can be wrong. *)
Definition follows (m : M unit) (p : list call) : Prop :=
  forall tr, exists r d,
    m tr = (r, (tr ++ d)%list) /\
    (exists rest, p = (steps d ++ rest)%list) /\
    (r = Ok tt -> steps d = p) /\
    (tool_exit_only w -> r = Ok tt).

Lemma do_eq (c : call) (tr : trace) :
  do w c tr
  = (match w tr c with None => Ok tt | Some e => Raise e end,
     (tr ++ [(c, w tr c)])%list).
Proof. unfold do. destruct (w tr c); reflexivity. Qed.

Lemma follows_ret : follows (ret tt) [].
Proof.
  intros tr. exists (Ok tt), []. rewrite app_nil_r.
  repeat split; auto. now exists [].
Qed.

Lemma follows_do (c : call) :
  is_report c = false -> (forall argv, c <> subprocess_run argv) ->
  follows (do w c) [c].
Proof.
  intros Hp Hr tr. rewrite do_eq.
  eexists _, [(c, w tr c)]. split; [reflexivity|].
  unfold steps, calls. simpl. rewrite Hp. simpl.
  repeat split; auto.
  - now exists [].
  - intros Hw. destruct (w tr c) as [e|] eqn:E; [|reflexivity].
    destruct (Hw _ _ _ E) as [[argv Hc] _]. now destruct (Hr argv).
Qed.

Lemma follows_report (line : string) :
  is_report (print line) = true -> follows (do w (print line)) [].
Proof.
  intros Hp tr. rewrite do_eq.
  eexists _, [(print line, w tr (print line))]. split; [reflexivity|].
  unfold steps, calls. cbn [map fst filter]. rewrite Hp.
  repeat split; auto.
  - now exists [].
  - intros Hw. destruct (w tr (print line)) as [e|] eqn:E; [|reflexivity].
    destruct (Hw _ _ _ E) as [[argv Hc] _]. discriminate.
Qed.

Lemma follows_bind (m k : M unit) (p q : list call) :
  follows m p -> follows k q -> follows (m ;; k) (p ++ q)%list.
Proof.
  intros Hm Hk tr. unfold bind.
  destruct (Hm tr) as (r1 & d1 & E1 & [rest1 P1] & F1 & B1). rewrite E1.
  destruct r1 as [[]|e].
  - destruct (Hk (tr ++ d1)%list) as (r2 & d2 & E2 & [rest2 P2] & F2 & B2).
    rewrite E2. exists r2, (d1 ++ d2)%list. rewrite app_assoc.
    split; [reflexivity|]. rewrite steps_app, (F1 eq_refl).
    repeat split.
    + exists rest2. rewrite <- app_assoc. now f_equal.
    + intros H. now rewrite (F2 H).
    + exact B2.
  - exists (Raise e), d1. split; [reflexivity|]. repeat split.
    + exists (rest1 ++ q)%list. rewrite app_assoc. now f_equal.
    + discriminate.
    + intros Hw. discriminate (B1 Hw).
Qed.

Lemma follows_for_each {A} (body : A -> M unit) (f : A -> list call) (xs : list A) :
  (forall x, In x xs -> follows (body x) (f x)) ->
  follows (for_each xs body) (flat_map f xs).
Proof.
  induction xs as [|x xs IH]; intros H; simpl.
  - apply follows_ret.
  - apply follows_bind; [apply H; now left|].
    apply IH. intros y Hy. apply H. now right.
Qed.

Lemma follows_lift (text : string) (k : string -> M unit) (p : list call) :
  follows (k text) p -> follows (x <- lift (Ok text) ;; k x) p.
Proof. intros H tr. exact (H tr). Qed.

Ltac close_case :=
  rewrite <- ?app_assoc; eexists _, _; (split; [reflexivity|]);
  unfold steps, calls; simpl;
  (split; [now exists []|]); (split; [auto; discriminate|]);
  let Hw := fresh "Hw" in
  intros Hw; try reflexivity; exfalso;
  repeat match goal with
         | E : w _ _ = Some _ |- _ =>
             destruct (Hw _ _ _ E) as [[? ?] [? [? ?]]]; clear E; try discriminate
         end.

(** One conversion starts the rasterizer once, whatever comes of it. *)
Lemma follows_convert (name : string) (sz : string * Z) :
  follows (convert w (images_path_of script name) (svg_file_of name) sz)
          [conversion name sz].
Proof.
  destruct sz as [size_name size]. intros tr.
  unfold convert, try_except_CalledProcessError, bind, conversion.
  cbn [fst snd]. fold (png_file_of name size_name).
  set (c := subprocess_run _).
  rewrite do_eq. destruct (w tr c) as [e|] eqn:E.
  - destruct e; try close_case.
    rewrite do_eq.
    match goal with |- context [w ?t ?p] => destruct (w t p) eqn:E2 end;
      close_case.
  - rewrite do_eq.
    match goal with |- context [w ?t ?p] => destruct (w t p) as [e|] eqn:E2 end;
      [|close_case].
    destruct e; try close_case.
    rewrite do_eq.
    match goal with |- context [w ?t (print ?l)] => destruct (w t (print l)) eqn:E3 end;
      close_case.
Qed.

(** A non-zero exit status is caught and reported; the conversion then
    ends as the report does. *)
Lemma convert_reports (name size_name : string) (size : Z) (tr : trace)
    (returncode : Z) (text : string) :
  let c := conversion name (size_name, size) in
  w tr c = Some (CalledProcessError returncode text) ->
  convert w (images_path_of script name) (svg_file_of name) (size_name, size) tr
  = do w (print ("  ERROR creating " ++ size_name ++ ".png: " ++ text))
      (tr ++ [(c, Some (CalledProcessError returncode text))])%list.
Proof.
  intros c H. unfold convert, try_except_CalledProcessError, bind.
  fold (png_file_of name size_name). rewrite do_eq.
  change (subprocess_run _) with c. rewrite H. reflexivity.
Qed.

Definition is_CalledProcessError (e : exn) : bool :=
  match e with CalledProcessError _ _ => true | _ => false end.

(** Any other exception of the rasterizer's start leaves the conversion. *)
Lemma convert_lets_others_through (name size_name : string) (size : Z)
    (tr : trace) (e : exn) :
  let c := conversion name (size_name, size) in
  w tr c = Some e -> is_CalledProcessError e = false ->
  convert w (images_path_of script name) (svg_file_of name) (size_name, size) tr
  = (Raise e, (tr ++ [(c, Some e)])%list).
Proof.
  intros c H He. unfold convert, try_except_CalledProcessError, bind.
  fold (png_file_of name size_name). rewrite do_eq.
  change (subprocess_run _) with c. rewrite H.
  destruct e; try reflexivity. discriminate.
Qed.

(** The sizes in the order of the loop. *)
Lemma follows_sizes (name : string) :
  follows (for_each sizes (convert w (images_path_of script name) (svg_file_of name)))
          [conversion name ("small", 75%Z); conversion name ("large", 500%Z);
           conversion name ("xlarge", 1000%Z)].
Proof.
  apply (follows_for_each _ (fun sz => [conversion name sz]) sizes).
  intros sz _. apply follows_convert.
Qed.

Lemma follows_generate (icon : string * string) :
  is_Ok (generate_svg extended (fst icon) (snd icon)) = true ->
  follows (generate extended script w icon) (icon_plan icon).
Proof.
  destruct icon as [name frag]. unfold icon_plan, svg_text. cbn [fst snd].
  intros H. unfold generate. cbv zeta.
  destruct (generate_svg extended name frag) as [text|e]; [clear H|discriminate].
  fold (svg_file_of name).
  apply (follows_bind _ _ [_] [_; _; _; _; _; _]).
  { apply follows_do; [reflexivity|discriminate]. }
  apply follows_lift.
  apply (follows_bind _ _ [_] [_; _; _; _; _]).
  { apply follows_do; [reflexivity|discriminate]. }
  apply (follows_bind _ _ [_] [_; _; _; _]).
  { apply follows_do; [reflexivity|discriminate]. }
  apply (follows_bind _ _ [_; _; _] [_]).
  { apply follows_sizes. }
  apply follows_do; [reflexivity|discriminate].
Qed.

Lemma follows_main_over (icons : list (string * string)) :
  forallb (fun icon => clean (snd icon)) icons = true ->
  follows (main_over extended script w icons) (plan icons).
Proof.
  intros H. unfold main_over, plan. apply follows_for_each.
  intros icon Hin. apply follows_generate.
  rewrite forallb_forall in H.
  now rewrite (generate_svg_clean extended _ _ (H _ Hin)).
Qed.

(** An icon that does not render ends the run: its directory is made,
    nothing else. *)
Lemma generate_raises (name frag : string) (e : exn) (tr : trace) :
  generate_svg extended name frag = Raise e ->
  let c := os_makedirs (images_path_of script name) in
  generate extended script w (name, frag) tr
  = (match w tr c with None => Raise e | Some e' => Raise e' end,
     (tr ++ [(c, w tr c)])%list).
Proof.
  intros H c. unfold generate. cbv zeta. rewrite H. unfold bind at 1.
  rewrite do_eq. fold c. destruct (w tr c); reflexivity.
Qed.

Lemma for_each_never {A} (body : A -> M unit) (xs zs : list A) (y : A) :
  (forall tr, exists e, fst (body y tr) = Raise e) ->
  forall tr, exists e, fst (for_each (xs ++ y :: zs) body tr) = Raise e.
Proof.
  intros H. induction xs as [|x xs IH]; intros tr; simpl; unfold bind.
  - destruct (H tr) as [e He]. destruct (body y tr) as [[[]|e'] tr'];
      simpl in He; [discriminate|eauto].
  - destruct (body x tr) as [[[]|e'] tr']; [apply IH|simpl; eauto].
Qed.

End Run.

End Orchestrator.

(** * Paths *)

Module PathFacts.
Import os_path.

Fixpoint sep_free (s : string) : bool :=
  match s with
  | EmptyString => true
  | String c r => negb (Ascii.eqb c sep) && sep_free r
  end.

(** A path component: not empty, no separator. *)
Definition component (s : string) : bool := negb (is_empty s) && sep_free s.

Lemma append_assoc (a b c : string) : (a ++ b) ++ c = a ++ b ++ c.
Proof. induction a as [|x a IH]; simpl; [reflexivity|now rewrite IH]. Qed.

Lemma is_empty_app (a b : string) : is_empty (a ++ b) = is_empty a && is_empty b.
Proof. destruct a; reflexivity. Qed.

Lemma head_sep_free (f : string) : sep_free f = true -> head f = "".
Proof.
  induction f as [|c f IH]; simpl; [reflexivity|].
  intros H. apply andb_true_iff in H as [Hc Hf]. apply negb_true_iff in Hc.
  rewrite (IH Hf), Hc. reflexivity.
Qed.

Lemma head_app (d f : string) :
  sep_free f = true -> head (d ++ String sep f) = d ++ String sep "".
Proof.
  intros Hf. induction d as [|c d IH]; simpl.
  - rewrite (head_sep_free f Hf). reflexivity.
  - rewrite IH, is_empty_app. simpl. rewrite andb_false_r, orb_true_r. reflexivity.
Qed.

Lemma rstrip_sep_app (d : string) :
  endswith_sep d = false -> rstrip_sep (d ++ String sep "") = d.
Proof.
  induction d as [|c d IH]; [reflexivity|].
  intros H. cbn [append rstrip_sep]. destruct d as [|c' d].
  - simpl in H. simpl. rewrite H. reflexivity.
  - rewrite (IH H). simpl. rewrite andb_false_r. reflexivity.
Qed.

(** The directory of [d/f] is [d], and the root for a file at the root. *)
Lemma dirname_app (d f : string) :
  sep_free f = true -> endswith_sep d = false ->
  dirname (d ++ String sep f) = if is_empty d then String sep "" else d.
Proof.
  intros Hf Hd. unfold dirname.
  rewrite (head_app d f Hf), (rstrip_sep_app d Hd).
  destruct d; reflexivity.
Qed.

Lemma endswith_sep_app (a b : string) :
  is_empty b = false -> endswith_sep (a ++ b) = endswith_sep b.
Proof.
  intros Hb. induction a as [|c a IH]; [reflexivity|].
  cbn [append]. cbn [endswith_sep].
  destruct (a ++ b) eqn:E.
  - destruct a; [simpl in E; subst b|]; discriminate.
  - exact IH.
Qed.

Lemma endswith_sep_component (s : string) : sep_free s = true -> endswith_sep s = false.
Proof.
  induction s as [|c s IH]; [reflexivity|].
  intros H. cbn [sep_free] in H. apply andb_true_iff in H as [Hc Hs].
  apply negb_true_iff in Hc. cbn [endswith_sep].
  destruct s; [exact Hc|exact (IH Hs)].
Qed.

Lemma endswith_sep_tail (a b : string) :
  is_empty b = false -> sep_free b = true -> endswith_sep (a ++ String sep b) = false.
Proof.
  intros Hb0 Hb. change (String sep b) with (String sep "" ++ b).
  rewrite <- append_assoc, (endswith_sep_app _ b Hb0).
  now apply endswith_sep_component.
Qed.

Lemma startswith_sep_component (s : string) : sep_free s = true -> startswith_sep s = false.
Proof.
  destruct s as [|c s]; [reflexivity|]. simpl. intros H.
  apply andb_true_iff in H as [Hc _]. now apply negb_true_iff in Hc.
Qed.

Lemma join_component (a b : string) :
  is_empty a = false -> endswith_sep a = false -> sep_free b = true ->
  join a b = a ++ String sep b.
Proof.
  intros Ha He Hb. unfold join.
  now rewrite (startswith_sep_component b Hb), Ha, He.
Qed.

(** Where the images of a driver go, for a script at [root/dir/file]. *)
Lemma images_path_shape (root dir file name : string) :
  endswith_sep root = false -> component dir = true -> sep_free file = true ->
  component name = true ->
  images_path_of (root ++ "/" ++ dir ++ "/" ++ file) name
  = root ++ "/drivers/" ++ name ++ "/assets/images".
Proof.
  intros Hroot Hdir Hfile Hname.
  apply andb_true_iff in Hdir as [Hdir0 Hdir]. apply negb_true_iff in Hdir0.
  apply andb_true_iff in Hname as [Hname0 Hname]. apply negb_true_iff in Hname0.
  unfold images_path_of, drivers_dir, base_dir.
  replace (root ++ "/" ++ dir ++ "/" ++ file)
    with ((root ++ String sep dir) ++ String sep file)
    by (rewrite append_assoc; reflexivity).
  assert (Hrd : endswith_sep (root ++ String sep dir) = false).
  { change (String sep dir) with (String sep "" ++ dir).
    rewrite <- append_assoc, (endswith_sep_app _ dir Hdir0).
    now apply endswith_sep_component. }
  rewrite (dirname_app _ file Hfile Hrd), is_empty_app. simpl is_empty.
  rewrite andb_false_r, (dirname_app root dir Hdir Hroot).
  assert (Hdrv : join (if is_empty root then String sep "" else root) "drivers"
                 = root ++ "/drivers").
  { destruct (is_empty root) eqn:E.
    - destruct root; [reflexivity|discriminate].
    - now rewrite join_component. }
  rewrite Hdrv.
  assert (E1 : forall a b, is_empty b = false -> is_empty (a ++ b) = false).
  { intros a b Hb. rewrite is_empty_app, Hb. apply andb_false_r. }
  rewrite (join_component (root ++ "/drivers") name);
    [|now apply E1|now rewrite endswith_sep_app|exact Hname].
  rewrite (join_component _ "assets");
    [|now apply E1|now apply endswith_sep_tail|reflexivity].
  rewrite join_component;
    [|now apply E1|now rewrite endswith_sep_app|reflexivity].
  rewrite !append_assoc. reflexivity.
Qed.

End PathFacts.

(** * The catalog *)

Module Catalog.

(** The identifiers of the specification, in its order. *)
Definition catalog_ids : list string :=
  [ "all-devices"; "blinds"; "camera"; "diffuser"; "doorbell"; "fan"; "garage";
    "heater-cooler"; "home-away"; "humidifier"; "kettle"; "light"; "lock";
    "outlet"; "purifier"; "robot"; "sensor"; "smoke-co-detector"; "switch";
    "thermostat"; "valve" ].

Definition quote : ascii := "034"%char.

Fixpoint upto_quote (s : string) : string :=
  match s with
  | EmptyString => EmptyString
  | String c r => if Ascii.eqb c quote then EmptyString else String c (upto_quote r)
  end.

Fixpoint drop (n : nat) (s : string) : string :=
  match n, s with
  | S n', String _ r => drop n' r
  | _, _ => s
  end.

(** The quoted values that follow each occurrence of [opening] in [s]. *)
Fixpoint attribute_values (opening s : string) : list string :=
  match s with
  | EmptyString => []
  | String _ r =>
      ((if starts_with opening s
        then [upto_quote (drop (String.length opening) s)] else [])
       ++ attribute_values opening r)%list
  end.

(** The values of the fill and stroke attributes of a fragment. *)
Definition paints (fragment : string) : list string :=
  (attribute_values (dq " fill='") fragment
   ++ attribute_values (dq " stroke='") fragment)%list.

(** Its colors: the paints other than the keyword for no paint. *)
Definition colors_of (fragment : string) : list string :=
  filter (fun v => negb (String.eqb v "none")) (paints fragment).

(** The seven characters from each number sign on. *)
Fixpoint hex_literals (s : string) : list string :=
  match s with
  | EmptyString => []
  | String c r =>
      ((if Ascii.eqb c "#"%char then [substring 0 7 s] else [])
       ++ hex_literals r)%list
  end.

Definition ALERT_RED : string := "#FF5555".
Definition HEALTHY_GREEN : string := "#55CC55".

(** The two color parameters, literal white and the two status colors. *)
Definition palette : list string :=
  ["{teal}"; "{dark}"; "white"; ALERT_RED; HEALTHY_GREEN].

Definition mem (v : string) (l : list string) : bool := existsb (String.eqb v) l.

Definition entry_ok (icon : string * string) : bool :=
  let (name, fragment) := icon in
  Renderer.clean fragment &&
  forallb (fun v => mem v palette) (colors_of fragment) &&
  forallb (fun v => mem v [ALERT_RED; HEALTHY_GREEN]) (hex_literals fragment) &&
  Bool.eqb (occurs ALERT_RED fragment) (mem name ["camera"; "smoke-co-detector"]) &&
  Bool.eqb (occurs HEALTHY_GREEN fragment) (mem name ["purifier"]).

Lemma mem_In (v : string) (l : list string) : mem v l = true <-> In v l.
Proof.
  unfold mem. rewrite existsb_exists. split.
  - intros [x [Hx E]]. apply String.eqb_eq in E. now subst.
  - intros H. exists v. split; [exact H|apply String.eqb_refl].
Qed.

Lemma catalog_entries_ok : forallb entry_ok DEVICE_ICONS = true.
Proof. vm_compute. reflexivity. Qed.

Lemma catalog_keys : map fst DEVICE_ICONS = catalog_ids.
Proof. reflexivity. Qed.

Lemma catalog_ids_distinct : NoDup catalog_ids.
Proof.
  assert (E : nodup string_dec catalog_ids = catalog_ids) by (vm_compute; reflexivity).
  rewrite <- E. apply NoDup_nodup.
Qed.

Lemma catalog_components :
  forallb (fun icon => PathFacts.component (fst icon)) DEVICE_ICONS = true.
Proof. vm_compute. reflexivity. Qed.

End Catalog.

(** * Whole runs *)

Module Run.
Import Renderer Orchestrator Catalog.

Definition written (cs : list call) : list string :=
  flat_map (fun c => match c with write_file path _ => [path] | _ => [] end) cs.

(** A projection that looks at no printed line sees the steps only. *)
Lemma flat_map_steps {B} (f : call -> list B) (tr : trace) :
  (forall line, f (print line) = []) ->
  flat_map f (steps tr) = flat_map f (calls tr).
Proof.
  intros Hf. unfold steps. induction (calls tr) as [|c cs IH]; [reflexivity|].
  cbn [filter]. destruct (is_report c) eqn:E; cbn [negb flat_map].
  - destruct c; try discriminate. now rewrite Hf.
  - now rewrite IH.
Qed.

Lemma removed_steps (tr : trace) : removed (steps tr) = removed (calls tr).
Proof. now apply flat_map_steps. Qed.

Lemma made_steps (tr : trace) : made (steps tr) = made (calls tr).
Proof. now apply flat_map_steps. Qed.

Lemma flat_map_flat_map {A B C} (f : B -> list C) (g : A -> list B) (l : list A) :
  flat_map f (flat_map g l) = flat_map (fun a => flat_map f (g a)) l.
Proof.
  induction l as [|a l IH]; [reflexivity|].
  cbn [flat_map]. now rewrite flat_map_app, IH.
Qed.

Lemma flat_map_singleton {A B} (f : A -> B) (l : list A) :
  flat_map (fun a => [f a]) l = map f l.
Proof. induction l as [|a l IH]; [reflexivity|]. simpl. now rewrite IH. Qed.

Lemma flat_map_ext_in {A B} (f g : A -> list B) (l : list A) :
  (forall a, In a l -> f a = g a) -> flat_map f l = flat_map g l.
Proof.
  induction l as [|a l IH]; intros H; [reflexivity|].
  cbn [flat_map]. rewrite (H a (or_introl eq_refl)), IH; [reflexivity|].
  intros b Hb. apply H. now right.
Qed.

Section Plan.

Variable extended : string -> string -> option ascii -> string -> result string.
Variable script : string.

(** The command lines of one icon, and of the whole catalog. *)
Definition icon_conversions (name : string) : list (list string) :=
  map (fun sz : string * Z =>
         rsvg_convert (snd sz) (svg_file_of script name)
           (png_file_of script name (fst sz))) sizes.

Definition all_conversions : list (list string) :=
  flat_map (fun icon : string * string => icon_conversions (fst icon)) DEVICE_ICONS.

Lemma run_args_plan (icons : list (string * string)) :
  run_args (plan extended script icons)
  = flat_map (fun icon => icon_conversions (fst icon)) icons.
Proof. unfold run_args, plan. now rewrite flat_map_flat_map. Qed.

Lemma removed_plan (icons : list (string * string)) :
  removed (plan extended script icons)
  = map (fun icon => svg_file_of script (fst icon)) icons.
Proof.
  unfold removed, plan. rewrite flat_map_flat_map. apply flat_map_singleton.
Qed.

Lemma made_plan (icons : list (string * string)) :
  made (plan extended script icons)
  = map (fun icon => images_path_of script (fst icon)) icons.
Proof.
  unfold made, plan. rewrite flat_map_flat_map. apply flat_map_singleton.
Qed.

Lemma announced_plan (icons : list (string * string)) :
  announced (plan extended script icons)
  = map (fun icon => "Created SVG for " ++ fst icon) icons.
Proof.
  unfold announced, plan. rewrite flat_map_flat_map. apply flat_map_singleton.
Qed.

(** Every run goes along the plan; a run that returns has gone all the
    way; a run in which only exit statuses go wrong returns. *)
Lemma main_follows_plan (w : world) :
  exists r tr,
    main extended script w [] = (r, tr) /\
    (exists rest, plan extended script DEVICE_ICONS = (steps tr ++ rest)%list) /\
    (r = Ok tt -> steps tr = plan extended script DEVICE_ICONS) /\
    (tool_exit_only w -> r = Ok tt).
Proof.
  destruct (follows_main_over extended script w DEVICE_ICONS catalog_clean [])
    as (r & d & E & P & F & B).
  exists r, d. auto.
Qed.

Lemma main_returned (w : world) (tr : trace) :
  main extended script w [] = (Ok tt, tr) ->
  steps tr = plan extended script DEVICE_ICONS.
Proof.
  intros H. destruct (main_follows_plan w) as (r & tr' & E & _ & F & _).
  rewrite H in E. inversion E; subst. now apply F.
Qed.

Lemma main_recovers (w : world) :
  tool_exit_only w ->
  exists tr, main extended script w [] = (Ok tt, tr) /\
             steps tr = plan extended script DEVICE_ICONS.
Proof.
  intros Hw. destruct (main_follows_plan w) as (r & tr & E & _ & F & B).
  rewrite (B Hw) in *. exists tr. auto.
Qed.

End Plan.

(** ** Sample runs *)

(** A runtime that takes bare names only; the catalog asks for no more. *)
Definition bare_only : string -> string -> option ascii -> string -> result string :=
  fun _ _ _ _ => Raise (ValueError "field is more than a bare name").

Definition sample_script : string := "/repo/scripts/generate-icons.py".

Definition is_size (size : string) (argv : list string) : bool :=
  match nth_error argv 2 with
  | Some s => String.eqb s size
  | None => false
  end.

(** Nothing goes wrong. *)
Definition quiet : world := fun _ _ => None.

(** The rasterizer exits with status 1 on every 500-pixel image. *)
Definition large_fails : world :=
  fun _ c =>
    match c with
    | subprocess_run argv =>
        if is_size "500" argv
        then Some (CalledProcessError 1 "Command returned non-zero exit status 1.")
        else None
    | _ => None
    end.

(** The rasterizer is not installed. *)
Definition tool_missing : world :=
  fun _ c =>
    match c with
    | subprocess_run _ =>
        Some (OSError "[Errno 2] No such file or directory: 'rsvg-convert'")
    | _ => None
    end.

(** The rasterizer cannot be started for the 500-pixel images. *)
Definition large_unstartable : world :=
  fun _ c =>
    match c with
    | subprocess_run argv =>
        if is_size "500" argv
        then Some (OSError "[Errno 12] Cannot allocate memory")
        else None
    | _ => None
    end.

(** In these two worlds nothing fails but the start of the rasterizer. *)
Definition start_failures_only (w : world) : Prop :=
  forall tr c e, w tr c = Some e ->
    (exists argv, c = subprocess_run argv) /\ (exists text, e = OSError text).

Lemma large_fails_tool_exit_only : tool_exit_only large_fails.
Proof.
  intros tr c e H. destruct c; try discriminate. simpl in H.
  destruct (is_size "500" argv); [|discriminate].
  inversion H. split; eauto.
Defined.

Lemma tool_missing_start_failures_only : start_failures_only tool_missing.
Proof.
  intros tr c e H. destruct c; try discriminate.
  inversion H. split; eauto.
Qed.

Lemma large_unstartable_start_failures_only : start_failures_only large_unstartable.
Proof.
  intros tr c e H. destruct c; try discriminate. simpl in H.
  destruct (is_size "500" argv); [|discriminate].
  inversion H. split; eauto.
Qed.

End Run.

(** * The specification *)

Import Format FormatFacts Renderer Orchestrator Catalog Run PathFacts.

(** ** Rasterization failures *)

(** C1 as stated fails: when the rasterizer cannot be started, the
    exception is not caught.  The run ends at the first size of the first
    icon; no other size and no other icon is attempted. *)
Lemma missing_tool_ends_the_run :
  start_failures_only tool_missing /\
  fst (main bare_only sample_script tool_missing [])
  = Raise (OSError "[Errno 2] No such file or directory: 'rsvg-convert'") /\
  run_args (calls (snd (main bare_only sample_script tool_missing [])))
  = [ ["rsvg-convert"; "-w"; "75"; "-h"; "75";
       "/repo/drivers/all-devices/assets/images/icon.svg"; "-o";
       "/repo/drivers/all-devices/assets/images/small.png"] ] /\
  List.length (all_conversions sample_script) = 63.
Proof.
  split; [exact tool_missing_start_failures_only|].
  vm_compute. repeat split.
Qed.

(** C2 as stated fails: when the rasterizer cannot be started for one size
    of one icon, the run ends there; the icon.svg that was written is not
    removed and the remaining size is not attempted. *)
Lemma unstartable_tool_leaves_svg :
  start_failures_only large_unstartable /\
  let run := main bare_only sample_script large_unstartable [] in
  fst run = Raise (OSError "[Errno 12] Cannot allocate memory") /\
  written (calls (snd run)) = ["/repo/drivers/all-devices/assets/images/icon.svg"] /\
  removed (calls (snd run)) = [] /\
  List.length (run_args (calls (snd run))) = 2.
Proof.
  split; [exact large_unstartable_start_failures_only|].
  vm_compute. repeat split.
Qed.

(** ** The renderer *)

(** C3: a fragment made of brace-free markup and the two placeholders
    renders to the document around the same markup with #44DBBD in place
    of every primary placeholder and #2F2E2E in place of every accent
    placeholder; no brace is left in the document. *)
Theorem placeholders_are_substituted
    (extended : string -> string -> option ascii -> string -> result string)
    (device_name : string) (ps : list piece) :
  forallb brace_free ps = true ->
  generate_svg extended device_name (text_of source ps)
  = Ok (document (text_of colorized ps)) /\
  plain (document (text_of colorized ps)) = true.
Proof.
  intros H. split.
  - rewrite generate_svg_unfold, (format_pieces extended ps H). reflexivity.
  - rewrite plain_document. now apply plain_pieces.
Qed.

Lemma placeholders_are_substituted_witness :
  let ps := [Text "<circle r='60' fill='"; Primary; Text "' stroke='"; Accent;
             Text "'/><circle r='9' fill='"; Primary; Text "'/>"] in
  text_of source ps
  = "<circle r='60' fill='{teal}' stroke='{dark}'/><circle r='9' fill='{teal}'/>" /\
  generate_svg bare_only "sensor" (text_of source ps)
  = Ok (document
          "<circle r='60' fill='#44DBBD' stroke='#2F2E2E'/><circle r='9' fill='#44DBBD'/>") /\
  plain (document (text_of colorized ps)) = true.
Proof.
  intros ps. split; [reflexivity|].
  exact (placeholders_are_substituted bare_only "sensor" ps eq_refl).
Defined.

(** C4: a fragment with a placeholder outside the two recognized names
    makes [generate_svg] raise.  Nothing catches the exception: the loop
    body ends with it once the directory is made, and a run over a catalog
    that holds such a fragment never returns normally. *)
Theorem foreign_placeholder_ends_the_run
    (extended : string -> string -> option ascii -> string -> result string)
    (script : string) (w : world)
    (before after : list (string * string)) (name fragment : string) (tr : trace) :
  has_foreign_placeholder fragment = true ->
  exists e,
    generate_svg extended name fragment = Raise e /\
    (forall tr', w tr' (os_makedirs (images_path_of script name)) = None ->
       generate extended script w (name, fragment) tr'
       = (Raise e, (tr' ++ [(os_makedirs (images_path_of script name), None)])%list)) /\
    exists e',
      fst (main_over extended script w (before ++ (name, fragment) :: after) tr)
      = Raise e'.
Proof.
  intros H. destruct (generate_svg_foreign extended name fragment H) as [e He].
  exists e. split; [exact He|]. split.
  - intros tr' Hd. rewrite (generate_raises extended script w name fragment e tr' He).
    cbv zeta. rewrite Hd. reflexivity.
  - unfold main_over. apply for_each_never. intros tr'.
    rewrite (generate_raises extended script w name fragment e tr' He).
    cbv zeta. destruct (w tr' _); simpl; eauto.
Qed.

Lemma foreign_placeholder_ends_the_run_witness :
  has_foreign_placeholder "<circle r='60' fill='{blue}'/>" = true /\
  exists e,
    generate_svg bare_only "lamp" "<circle r='60' fill='{blue}'/>" = Raise e /\
    (forall tr', quiet tr' (os_makedirs (images_path_of sample_script "lamp")) = None ->
       generate bare_only sample_script quiet ("lamp", "<circle r='60' fill='{blue}'/>") tr'
       = (Raise e,
          (tr' ++ [(os_makedirs (images_path_of sample_script "lamp"), None)])%list)) /\
    exists e',
      fst (main_over bare_only sample_script quiet
             ([("fan", "<circle r='60' fill='{teal}'/>")]
              ++ ("lamp", "<circle r='60' fill='{blue}'/>") :: [("lock", "{dark}")]) [])
      = Raise e'.
Proof.
  split; [reflexivity|].
  exact (foreign_placeholder_ends_the_run bare_only sample_script quiet
           [("fan", "<circle r='60' fill='{teal}'/>")] [("lock", "{dark}")]
           "lamp" "<circle r='60' fill='{blue}'/>" [] eq_refl).
Defined.

(** C5: whenever the colors can be substituted, the document is the
    1000x1000 canvas holding the white background rectangle and then the
    group translated by (500, 500) that wraps the colorized fragment as it
    stands. *)
Theorem document_wraps_colorized_fragment
    (extended : string -> string -> option ascii -> string -> result string)
    (device_name icon_path shape : string) :
  format extended icon_path [("teal", TEAL); ("dark", DARK_GRAY)] = Ok shape ->
  generate_svg extended device_name icon_path
  = Ok (xml_declaration ++ nl ++
        canvas_open ++ nl ++
        "  " ++ background_note ++ nl ++
        "  " ++ background ++ nl ++
        "  " ++ group_open ++ nl ++
        "    " ++ shape ++ nl ++
        "  " ++ group_close ++ nl ++
        canvas_close ++ nl).
Proof.
  intros H. rewrite generate_svg_unfold. unfold colors. rewrite H. reflexivity.
Qed.

Lemma document_wraps_colorized_fragment_witness :
  format bare_only "<path d='M 0,0' fill='{teal}'/>{{}}"
    [("teal", TEAL); ("dark", DARK_GRAY)]
  = Ok "<path d='M 0,0' fill='#44DBBD'/>{}" /\
  generate_svg bare_only "valve" "<path d='M 0,0' fill='{teal}'/>{{}}"
  = Ok (document "<path d='M 0,0' fill='#44DBBD'/>{}").
Proof.
  split; [reflexivity|].
  exact (document_wraps_colorized_fragment bare_only "valve"
           "<path d='M 0,0' fill='{teal}'/>{{}}"
           "<path d='M 0,0' fill='#44DBBD'/>{}" eq_refl).
Defined.

(** [generate_svg] does not look at the device name. *)
Lemma generate_svg_ignores_device_name
    (extended : string -> string -> option ascii -> string -> result string)
    (name1 name2 icon_path : string) (tr : trace) :
  generate_svg extended name1 icon_path = generate_svg extended name2 icon_path /\
  lift (generate_svg extended name1 icon_path) tr
  = (generate_svg extended name2 icon_path, tr).
Proof.
  assert (E : generate_svg extended name1 icon_path
              = generate_svg extended name2 icon_path)
    by (now rewrite !generate_svg_unfold).
  split; [exact E|]. unfold lift. now rewrite E.
Qed.

(** C10: every fragment of the catalog renders. *)
Theorem catalog_renders
    (extended : string -> string -> option ascii -> string -> result string)
    (name fragment : string) :
  In (name, fragment) DEVICE_ICONS ->
  has_foreign_placeholder fragment = false /\
  exists text, generate_svg extended name fragment = Ok text.
Proof.
  intros Hin. pose proof catalog_clean as H. rewrite forallb_forall in H.
  specialize (H _ Hin). cbn [snd] in H. split.
  - destruct (has_foreign_placeholder fragment) eqn:E; [|reflexivity].
    destruct (generate_svg_foreign extended name fragment E) as [e He].
    rewrite (generate_svg_clean extended name fragment H) in He. discriminate.
  - eexists. apply (generate_svg_clean extended name fragment H).
Qed.

Lemma catalog_renders_witness :
  let fragment := snd (nth 5 DEVICE_ICONS ("", "")) in
  In ("fan", fragment) DEVICE_ICONS /\
  has_foreign_placeholder fragment = false /\
  exists text, generate_svg bare_only "fan" fragment = Ok text.
Proof.
  intros fragment.
  assert (Hin : In ("fan", fragment) DEVICE_ICONS)
    by (do 5 right; left; reflexivity).
  split; [exact Hin|].
  exact (catalog_renders bare_only "fan" fragment Hin).
Defined.

(** ** The catalog *)

(** C8: a fragment of the catalog has no placeholder but the two color
    parameters; each of its colors is one of the two parameters, literal
    white or one of the two status colors; #FF5555 occurs in the camera
    and smoke-co-detector fragments only, #55CC55 in the purifier fragment
    only. *)
Theorem catalog_colors (name fragment : string) :
  In (name, fragment) DEVICE_ICONS ->
  clean fragment = true /\
  (forall v, In v (colors_of fragment) ->
     In v ["{teal}"; "{dark}"; "white"; "#FF5555"; "#55CC55"]) /\
  (forall v, In v (hex_literals fragment) -> v = "#FF5555" \/ v = "#55CC55") /\
  (occurs "#FF5555" fragment = true <-> name = "camera" \/ name = "smoke-co-detector") /\
  (occurs "#55CC55" fragment = true <-> name = "purifier").
Proof.
  intros Hin. pose proof catalog_entries_ok as H. rewrite forallb_forall in H.
  specialize (H _ Hin). unfold entry_ok in H.
  apply andb_true_iff in H as [H Hg]. apply andb_true_iff in H as [H Hr].
  apply andb_true_iff in H as [H Hh]. apply andb_true_iff in H as [Hcl Hc].
  rewrite forallb_forall in Hc, Hh. apply Bool.eqb_prop in Hr, Hg.
  split; [exact Hcl|]. split; [|split; [|split]].
  - intros v Hv. apply mem_In. auto.
  - intros v Hv. specialize (Hh v Hv). apply mem_In in Hh.
    destruct Hh as [<-|[<-|[]]]; [left|right]; reflexivity.
  - change ALERT_RED with "#FF5555" in Hr. rewrite Hr, mem_In.
    simpl. intuition congruence.
  - change HEALTHY_GREEN with "#55CC55" in Hg. rewrite Hg, mem_In.
    simpl. intuition congruence.
Qed.

Lemma catalog_colors_witness :
  let fragment := snd (nth 2 DEVICE_ICONS ("", "")) in
  In ("camera", fragment) DEVICE_ICONS /\
  colors_of fragment
  = ["{teal}"; "{dark}"; "white"; "{teal}"; "{teal}"; "{dark}"; "#FF5555"] /\
  (forall v, In v (colors_of fragment) ->
     In v ["{teal}"; "{dark}"; "white"; "#FF5555"; "#55CC55"]) /\
  (occurs "#FF5555" fragment = true <-> "camera" = "camera" \/ "camera" = "smoke-co-detector").
Proof.
  intros fragment.
  assert (Hin : In ("camera", fragment) DEVICE_ICONS)
    by (do 2 right; left; reflexivity).
  split; [exact Hin|]. split; [reflexivity|].
  destruct (catalog_colors "camera" fragment Hin) as (_ & Hc & _ & Hr & _).
  split; [exact Hc|exact Hr].
Defined.

(** C6: the catalog holds the 21 identifiers of the specification, each
    once; a run that returns has processed them all, in that order, and
    any two such runs take the same steps. *)
Theorem run_processes_the_catalog
    (extended : string -> string -> option ascii -> string -> result string)
    (script : string) (w : world) (tr : trace) :
  main extended script w [] = (Ok tt, tr) ->
  map fst DEVICE_ICONS = catalog_ids /\
  NoDup catalog_ids /\
  List.length catalog_ids = 21 /\
  announced (steps tr) = map (fun name => "Created SVG for " ++ name) catalog_ids /\
  made (calls tr) = map (images_path_of script) catalog_ids /\
  (forall w' tr', main extended script w' [] = (Ok tt, tr') -> steps tr' = steps tr).
Proof.
  intros H. pose proof (main_returned extended script w tr H) as P.
  split; [exact catalog_keys|]. split; [exact catalog_ids_distinct|].
  split; [reflexivity|]. split; [|split].
  - rewrite P, announced_plan, <- catalog_keys, map_map. reflexivity.
  - rewrite <- made_steps, P, made_plan, <- catalog_keys, map_map. reflexivity.
  - intros w' tr' H'. rewrite P. apply (main_returned extended script w' tr' H').
Qed.

Lemma run_processes_the_catalog_witness :
  let tr := snd (main bare_only sample_script large_fails []) in
  main bare_only sample_script large_fails [] = (Ok tt, tr) /\
  announced (steps tr) = map (fun name => "Created SVG for " ++ name) catalog_ids /\
  made (calls tr) = map (images_path_of sample_script) catalog_ids.
Proof.
  intros tr.
  assert (H : main bare_only sample_script large_fails [] = (Ok tt, tr))
    by (vm_compute; reflexivity).
  split; [exact H|].
  destruct (run_processes_the_catalog bare_only sample_script large_fails tr H)
    as (_ & _ & _ & Ha & Hm & _).
  split; [exact Ha|exact Hm].
Defined.

(** ** The layout of the output *)

(** What is done for one icon when the script is at root/dir/file. *)
Definition layout
    (extended : string -> string -> option ascii -> string -> result string)
    (root : string) (icon : string * string) : list call :=
  let name := fst icon in
  let directory := root ++ "/drivers/" ++ name ++ "/assets/images" in
  [ os_makedirs directory;
    write_file (directory ++ "/icon.svg") (svg_text extended icon);
    print ("Created SVG for " ++ name);
    subprocess_run ["rsvg-convert"; "-w"; "75"; "-h"; "75";
                    directory ++ "/icon.svg"; "-o"; directory ++ "/small.png"];
    subprocess_run ["rsvg-convert"; "-w"; "500"; "-h"; "500";
                    directory ++ "/icon.svg"; "-o"; directory ++ "/large.png"];
    subprocess_run ["rsvg-convert"; "-w"; "1000"; "-h"; "1000";
                    directory ++ "/icon.svg"; "-o"; directory ++ "/xlarge.png"];
    os_remove (directory ++ "/icon.svg") ].

Lemma images_directory (root name : string) :
  let directory := root ++ "/drivers/" ++ name ++ "/assets/images" in
  is_empty directory = false /\ os_path.endswith_sep directory = false.
Proof.
  intros directory. subst directory.
  replace (root ++ "/drivers/" ++ name ++ "/assets/images")
    with ((root ++ "/drivers/" ++ name) ++ "/assets/images")
    by (now rewrite !append_assoc).
  split.
  - rewrite is_empty_app. apply andb_false_r.
  - now rewrite endswith_sep_app.
Qed.

Lemma icon_plan_layout
    (extended : string -> string -> option ascii -> string -> result string)
    (root dir file : string) (icon : string * string) :
  os_path.endswith_sep root = false -> component dir = true ->
  sep_free file = true -> component (fst icon) = true ->
  icon_plan extended (root ++ "/" ++ dir ++ "/" ++ file) icon
  = layout extended root icon.
Proof.
  intros Hroot Hdir Hfile Hname.
  destruct (images_directory root (fst icon)) as [He Hs].
  unfold icon_plan, layout, conversion, svg_file_of, png_file_of. cbv zeta.
  rewrite (images_path_shape root dir file (fst icon) Hroot Hdir Hfile Hname).
  cbn [fst snd].
  rewrite !(join_component _ _ He Hs) by reflexivity.
  reflexivity.
Qed.

(** C7: with the script at root/dir/file, the drivers directory is
    root/drivers, and a run makes root/drivers/<identifier>/assets/images,
    writes icon.svg there and converts it to small.png at 75, large.png
    at 500 and xlarge.png at 1000, in that order, for each identifier in
    turn: all of it, returning, when nothing goes wrong but exit statuses
    of the rasterizer, and in any world as far as the run gets. *)
Theorem outputs_go_under_drivers
    (extended : string -> string -> option ascii -> string -> result string)
    (w : world) (root dir file : string) :
  os_path.endswith_sep root = false -> component dir = true ->
  sep_free file = true ->
  let script := root ++ "/" ++ dir ++ "/" ++ file in
  os_path.dirname script = root ++ "/" ++ dir /\
  drivers_dir script = root ++ "/drivers" /\
  exists r tr,
    main extended script w [] = (r, tr) /\
    (tool_exit_only w -> r = Ok tt) /\
    (r = Ok tt -> steps tr = flat_map (layout extended root) DEVICE_ICONS) /\
    (exists rest,
        flat_map (layout extended root) DEVICE_ICONS = (steps tr ++ rest)%list).
Proof.
  intros Hroot Hdir Hfile script.
  assert (Hplan : plan extended script DEVICE_ICONS
                  = flat_map (layout extended root) DEVICE_ICONS).
  { unfold plan. apply flat_map_ext_in. intros icon Hin.
    apply icon_plan_layout; auto.
    pose proof catalog_components as Hc. rewrite forallb_forall in Hc. auto. }
  pose proof Hdir as Hdir'.
  apply andb_true_iff in Hdir' as [Hdir0 Hdir1]. apply negb_true_iff in Hdir0.
  assert (Hscript : script = (root ++ String os_path.sep dir) ++ String os_path.sep file)
    by (subst script; rewrite append_assoc; reflexivity).
  assert (Hrd : os_path.endswith_sep (root ++ String os_path.sep dir) = false)
    by (now apply endswith_sep_tail).
  assert (Hd1 : os_path.dirname script = root ++ "/" ++ dir).
  { rewrite Hscript, (dirname_app _ file Hfile Hrd), is_empty_app.
    simpl is_empty. now rewrite andb_false_r. }
  split; [exact Hd1|]. split.
  - unfold drivers_dir, base_dir. rewrite Hd1.
    change (root ++ "/" ++ dir) with (root ++ String os_path.sep dir).
    rewrite (dirname_app root dir Hdir1 Hroot).
    destruct (is_empty root) eqn:E.
    + destruct root; [reflexivity|discriminate].
    + now rewrite join_component.
  - destruct (main_follows_plan extended script w) as (r & tr & E & P & F & B).
    exists r, tr. rewrite <- Hplan. auto.
Qed.

Lemma outputs_go_under_drivers_witness :
  drivers_dir "/repo/scripts/generate-icons.py" = "/repo/drivers" /\
  exists tr,
    main bare_only "/repo/scripts/generate-icons.py" large_fails [] = (Ok tt, tr) /\
    steps tr = flat_map (layout bare_only "/repo") DEVICE_ICONS.
Proof.
  destruct (outputs_go_under_drivers bare_only large_fails "/repo" "scripts"
              "generate-icons.py" eq_refl eq_refl eq_refl)
    as (_ & Hd & r & tr & E & B & F & _).
  split; [exact Hd|]. exists tr.
  pose proof (B large_fails_tool_exit_only) as Hr. subst r.
  split; [exact E|exact (F eq_refl)].
Defined.

(** * Evaluations *)

Module Examples.

Definition kw : kwargs := [("teal", "X"); ("dark", "Y")].

Example format_fields_and_escapes :
  format bare_only "a{teal}b{{c}}{dark}" kw = Ok "aXb{c}Y".
Proof. reflexivity. Qed.

Example format_unknown_name : format bare_only "a{teal}{blue}" kw = Raise (KeyError "blue").
Proof. reflexivity. Qed.

Example format_omitted_name : format bare_only "{}" kw = Raise (IndexError 0).
Proof. reflexivity. Qed.

Example format_numeric_name : format bare_only "{1.real}" kw = Raise (IndexError 1).
Proof. reflexivity. Qed.

Example format_single_closing_brace :
  format bare_only "a}b" kw
  = Raise (ValueError "Single '}' encountered in format string").
Proof. reflexivity. Qed.

Example format_unfinished_field :
  format bare_only "{teal" kw = Raise (ValueError "expected '}' before end of string").
Proof. reflexivity. Qed.

Example markup_of_a_field_with_everything :
  MarkupIterator "a{t[}]!r:{x}}b"
  = [Chr "a"; Field "t[}]" (Some "r"%char) "{x}"; Chr "b"].
Proof. reflexivity. Qed.

Example dirname_of_script :
  os_path.dirname "/repo/scripts/generate-icons.py" = "/repo/scripts"
  /\ os_path.dirname "/repo/scripts" = "/repo"
  /\ os_path.dirname "/generate-icons.py" = "/"
  /\ os_path.dirname "generate-icons.py" = "".
Proof. repeat split. Qed.

Example join_cases :
  os_path.join "/repo" "drivers" = "/repo/drivers"
  /\ os_path.join "/repo/" "drivers" = "/repo/drivers"
  /\ os_path.join "" "drivers" = "drivers"
  /\ os_path.join "/repo" "/drivers" = "/drivers".
Proof. repeat split. Qed.

Example str_of_sizes : map (fun sz => str_int (snd sz)) sizes = ["75"; "500"; "1000"].
Proof. reflexivity. Qed.

Example kettle_paints :
  paints (snd (nth 10 DEVICE_ICONS ("", "")))
  = ["{teal}"; "{dark}"; "none"; "{dark}"; "white"; "none"; "none";
     "{dark}"; "white"; "white"].
Proof. reflexivity. Qed.

(** The report of a failed size follows the attempt, and the next size is
    attempted. *)
Example report_of_a_failed_size :
  map fst (firstn 6 (skipn 3 (snd (main bare_only sample_script large_fails []))))
  = [ subprocess_run ["rsvg-convert"; "-w"; "75"; "-h"; "75";
                      "/repo/drivers/all-devices/assets/images/icon.svg"; "-o";
                      "/repo/drivers/all-devices/assets/images/small.png"];
      print "  Created small.png (75x75)";
      subprocess_run ["rsvg-convert"; "-w"; "500"; "-h"; "500";
                      "/repo/drivers/all-devices/assets/images/icon.svg"; "-o";
                      "/repo/drivers/all-devices/assets/images/large.png"];
      print "  ERROR creating large.png: Command returned non-zero exit status 1.";
      subprocess_run ["rsvg-convert"; "-w"; "1000"; "-h"; "1000";
                      "/repo/drivers/all-devices/assets/images/icon.svg"; "-o";
                      "/repo/drivers/all-devices/assets/images/xlarge.png"];
      print "  Created xlarge.png (1000x1000)" ].
Proof. vm_compute. reflexivity. Qed.

End Examples.

(** * Further properties *)

(** ** Where the output goes, for any script location *)

Module Layout.
Import os_path PathFacts Orchestrator Catalog.

Lemma length_append (a b : string) :
  String.length (a ++ b) = String.length a + String.length b.
Proof. induction a as [|c a IH]; simpl; [reflexivity|now rewrite IH]. Qed.

Lemma append_inv_head (a b c : string) : a ++ b = a ++ c -> b = c.
Proof.
  induction a as [|x a IH]; simpl; intros H; [exact H|].
  injection H as H. exact (IH H).
Qed.

Lemma append_inv_tail (a b t : string) : a ++ t = b ++ t -> a = b.
Proof.
  revert b. induction a as [|x a IH]; intros [|y b] H.
  - reflexivity.
  - apply (f_equal String.length) in H. simpl in H.
    rewrite length_append in H. lia.
  - apply (f_equal String.length) in H. simpl in H.
    rewrite length_append in H. lia.
  - simpl in H. injection H as Hx H. subst y. f_equal. exact (IH b H).
Qed.

(** Joining a component onto anything gives a path that is not empty and
    does not end with a separator. *)
Lemma join_tail (a b : string) :
  component b = true ->
  is_empty (join a b) = false /\ endswith_sep (join a b) = false.
Proof.
  intros Hb. apply andb_true_iff in Hb as [Hb0 Hb]. apply negb_true_iff in Hb0.
  unfold join. rewrite (startswith_sep_component b Hb).
  destruct (is_empty a || endswith_sep a).
  - split.
    + rewrite is_empty_app, Hb0. apply andb_false_r.
    + rewrite (endswith_sep_app a b Hb0). now apply endswith_sep_component.
  - split.
    + rewrite is_empty_app. apply andb_false_r.
    + now apply endswith_sep_tail.
Qed.

Lemma join_onto_join (a b c : string) :
  component b = true -> sep_free c = true ->
  join (join a b) c = join a b ++ String sep c.
Proof.
  intros Hb Hc. destruct (join_tail a b Hb) as [He Hs].
  now apply join_component.
Qed.

Lemma images_path_component (script name : string) :
  component name = true ->
  images_path_of script name
  = drivers_dir script ++ "/" ++ name ++ "/assets/images".
Proof.
  intros Hname. pose proof Hname as Hn.
  apply andb_true_iff in Hn as [_ Hn1].
  unfold images_path_of, drivers_dir.
  rewrite (join_onto_join (base_dir script) "drivers" name eq_refl Hn1).
  set (d := join (base_dir script) "drivers").
  assert (H1 : is_empty (d ++ String sep name) = false)
    by (rewrite is_empty_app; apply andb_false_r).
  assert (H2 : endswith_sep (d ++ String sep name) = false).
  { apply andb_true_iff in Hname as [Hn0 _]. apply negb_true_iff in Hn0.
    now apply endswith_sep_tail. }
  rewrite (join_component _ "assets" H1 H2 eq_refl).
  rewrite join_component; [| |now rewrite endswith_sep_app|reflexivity].
  - rewrite !append_assoc. reflexivity.
  - rewrite is_empty_app. apply andb_false_r.
Qed.

(** X1: whatever the location of the script, the images of an identifier
    that is one path component go to drivers_dir/identifier/assets/images. *)
Theorem images_path_under_drivers_dir (script name : string) :
  component name = true ->
  images_path_of script name
  = drivers_dir script ++ "/" ++ name ++ "/assets/images".
Proof.
  intros Hname. rewrite (images_path_component script name Hname).
  reflexivity.
Qed.

Lemma images_path_under_drivers_dir_witness :
  component "fan" = true /\
  drivers_dir "generate-icons.py" = "drivers" /\
  images_path_of "generate-icons.py" "fan"
  = drivers_dir "generate-icons.py" ++ "/" ++ "fan" ++ "/assets/images".
Proof.
  split; [reflexivity|]. split; [reflexivity|].
  exact (images_path_under_drivers_dir "generate-icons.py" "fan" eq_refl).
Defined.

(** X2: for an identifier that starts with a separator and does not end
    with one, the joins drop the drivers directory: the images go to
    identifier/assets/images, whatever the location of the script. *)
Theorem absolute_identifier_drops_drivers_dir (script name : string) :
  startswith_sep name = true -> endswith_sep name = false ->
  images_path_of script name = name ++ "/assets/images".
Proof.
  intros Hs He. unfold images_path_of.
  assert (Hj : join (drivers_dir script) name = name)
    by (unfold join; now rewrite Hs).
  rewrite Hj.
  assert (H0 : is_empty name = false) by (destruct name; [discriminate|reflexivity]).
  rewrite (join_component name "assets" H0 He eq_refl).
  rewrite join_component; [| |now rewrite endswith_sep_app|reflexivity].
  - rewrite !append_assoc. reflexivity.
  - rewrite is_empty_app, H0. reflexivity.
Qed.

Lemma absolute_identifier_drops_drivers_dir_witness :
  images_path_of "/repo/scripts/generate-icons.py" "/tmp/fan"
  = "/tmp/fan" ++ "/assets/images".
Proof.
  exact (absolute_identifier_drops_drivers_dir "/repo/scripts/generate-icons.py"
           "/tmp/fan" eq_refl eq_refl).
Defined.

Lemma images_path_tail (script name : string) :
  is_empty (images_path_of script name) = false /\
  endswith_sep (images_path_of script name) = false.
Proof. unfold images_path_of. now apply join_tail. Qed.

Lemma file_in_images_path (script name file : string) :
  sep_free file = true ->
  dirname (join (images_path_of script name) file) = images_path_of script name.
Proof.
  intros Hf. destruct (images_path_tail script name) as [H0 He].
  rewrite (join_component _ file H0 He Hf), (dirname_app _ file Hf He), H0.
  reflexivity.
Qed.

(** X3: icon.svg and the three images are files of the very directory
    that was made for the icon, for any script location and any
    identifier. *)
Theorem output_files_lie_in_images_path (script name : string) :
  dirname (svg_file_of script name) = images_path_of script name /\
  Forall (fun sz : string * Z =>
            dirname (png_file_of script name (fst sz)) = images_path_of script name)
         sizes.
Proof.
  split; [now apply file_in_images_path|].
  repeat constructor; now apply file_in_images_path.
Qed.

Lemma images_path_injective (script n1 n2 : string) :
  component n1 = true -> component n2 = true ->
  images_path_of script n1 = images_path_of script n2 -> n1 = n2.
Proof.
  intros H1 H2 E.
  rewrite (images_path_component script n1 H1),
          (images_path_component script n2 H2) in E.
  apply append_inv_head in E. apply append_inv_head in E.
  now apply append_inv_tail in E.
Qed.

Lemma catalog_ids_components : forallb component catalog_ids = true.
Proof. reflexivity. Qed.

(** X4: the output directories of the 21 identifiers are pairwise
    distinct, wherever the script is. *)
Theorem output_directories_distinct (script : string) :
  NoDup (map (images_path_of script) catalog_ids).
Proof.
  apply NoDup_map_NoDup_ForallPairs; [|exact catalog_ids_distinct].
  intros n1 n2 H1 H2 E. pose proof catalog_ids_components as Hc.
  rewrite forallb_forall in Hc. apply (images_path_injective script); auto.
Qed.

(** X5: no two conversions of a run write the same file: the output path
    determines the identifier and the size name. *)
Theorem output_files_distinct (script n1 n2 s1 s2 : string) :
  In n1 catalog_ids -> In n2 catalog_ids ->
  In s1 (map fst sizes) -> In s2 (map fst sizes) ->
  png_file_of script n1 s1 = png_file_of script n2 s2 ->
  n1 = n2 /\ s1 = s2.
Proof.
  intros Hn1 Hn2 Hs1 Hs2 E. pose proof catalog_ids_components as Hc.
  rewrite forallb_forall in Hc.
  assert (F : forall s, In s (map fst sizes) -> sep_free (s ++ ".png") = true).
  { intros s [<-|[<-|[<-|[]]]]; reflexivity. }
  assert (En : n1 = n2).
  { apply (images_path_injective script); auto.
    rewrite <- (file_in_images_path script n1 (s1 ++ ".png") (F _ Hs1)).
    rewrite <- (file_in_images_path script n2 (s2 ++ ".png") (F _ Hs2)).
    unfold png_file_of in E. now rewrite E. }
  split; [exact En|]. subst n2. unfold png_file_of in E.
  destruct (images_path_tail script n1) as [H0 He].
  rewrite !(join_component _ _ H0 He) in E by auto.
  apply append_inv_head in E. injection E as E.
  now apply append_inv_tail in E.
Qed.

Lemma output_files_distinct_witness :
  png_file_of "/repo/scripts/generate-icons.py" "lock" "large"
  = "/repo/drivers/lock/assets/images/large.png" /\
  ("lock" = "lock" /\ "large" = "large").
Proof.
  split; [reflexivity|].
  apply (output_files_distinct "/repo/scripts/generate-icons.py"
           "lock" "lock" "large" "large").
  - do 12 right. left. reflexivity.
  - do 12 right. left. reflexivity.
  - right. left. reflexivity.
  - right. left. reflexivity.
  - reflexivity.
Defined.

End Layout.

(** ** Braces in a fragment *)

Module Braces.
Import Format FormatFacts Renderer.

(** Doubling every brace of a text. *)
Fixpoint escape (s : string) : string :=
  match s with
  | EmptyString => EmptyString
  | String c r =>
      if is_brace c then String c (String c (escape r)) else String c (escape r)
  end.

Lemma scan_escape (s : string) : scan Txt (escape s) = literal s.
Proof.
  induction s as [|c s IH]; [reflexivity|].
  cbn [escape]. destruct (is_brace c) eqn:E.
  - unfold is_brace in E. apply orb_true_iff in E.
    destruct E as [E|E]; apply Ascii.eqb_eq in E; subst c.
    + change (scan Txt (String lbrace (String lbrace (escape s))))
        with (Chr lbrace :: scan Txt (escape s)).
      now rewrite IH.
    + change (scan Txt (String rbrace (String rbrace (escape s))))
        with (Chr rbrace :: scan Txt (escape s)).
      now rewrite IH.
  - rewrite scan_cons, (step_plain c E). cbn [fst snd]. now rewrite IH.
Qed.

Lemma build_literal_only extended (kw : kwargs) (s : string) :
  build_string extended kw (literal s) = Ok s.
Proof.
  induction s as [|c s IH]; [reflexivity|].
  unfold literal in *. cbn [list_ascii_of_string map build_string].
  now rewrite IH.
Qed.

(** X6: doubled braces come out as single ones and nothing else changes:
    formatting the escaped text gives the text back, with any keyword
    arguments, so a fragment can carry any markup once its braces are
    doubled. *)
Theorem escaped_text_is_rendered_verbatim
    (extended : string -> string -> option ascii -> string -> result string)
    (kw : kwargs) (device_name s : string) :
  format extended (escape s) kw = Ok s /\
  generate_svg extended device_name (escape s) = Ok (document s).
Proof.
  assert (H : forall k, format extended (escape s) k = Ok s).
  { intros k. unfold format, MarkupIterator.
    rewrite scan_escape. apply build_literal_only. }
  split; [apply H|].
  rewrite generate_svg_unfold, H. reflexivity.
Qed.

Definition is_bad (m : markup) : bool :=
  match m with Bad _ => true | _ => false end.

(** The markup iterator raises somewhere in the fragment. *)
Definition malformed (fragment : string) : bool :=
  existsb is_bad (MarkupIterator fragment).

Lemma build_string_bad extended (kw : kwargs) (ms : list markup) :
  existsb is_bad ms = true -> exists e, build_string extended kw ms = Raise e.
Proof.
  induction ms as [|m ms IH]; simpl; [discriminate|].
  destruct m as [c|name conv spec|e]; simpl; intros H.
  - destruct (IH H) as [e He]. rewrite He. simpl. eauto.
  - destruct (IH H) as [e He].
    destruct (render_field extended kw name conv spec); simpl; eauto.
    rewrite He. simpl. eauto.
  - eauto.
Qed.

(** X7: a document is returned only for a fragment the markup iterator
    goes through without raising and that has no foreign placeholder. *)
Theorem document_only_for_well_formed_fragment
    (extended : string -> string -> option ascii -> string -> result string)
    (device_name fragment text : string) :
  generate_svg extended device_name fragment = Ok text ->
  malformed fragment = false /\
  has_foreign_placeholder fragment = false /\
  exists shape,
    format extended fragment colors = Ok shape /\ text = document shape.
Proof.
  intros H. rewrite generate_svg_unfold in H. split; [|split].
  - destruct (malformed fragment) eqn:E; [|reflexivity].
    destruct (build_string_bad extended colors _ E) as [e He].
    unfold format in H. rewrite He in H. discriminate.
  - destruct (has_foreign_placeholder fragment) eqn:E; [|reflexivity].
    destruct (build_string_foreign extended _ E) as [e He].
    unfold format in H. rewrite He in H. discriminate.
  - destruct (format extended fragment colors) as [shape|e]; [|discriminate].
    exists shape. split; [reflexivity|]. simpl in H. now inversion H.
Qed.

Lemma document_only_for_well_formed_fragment_witness :
  malformed "<circle r='5' fill='{dark}'/>" = false /\
  has_foreign_placeholder "<circle r='5' fill='{dark}'/>" = false /\
  exists shape,
    format Run.bare_only "<circle r='5' fill='{dark}'/>" colors = Ok shape /\
    document "<circle r='5' fill='#2F2E2E'/>" = document shape.
Proof.
  exact (document_only_for_well_formed_fragment Run.bare_only "valve"
           "<circle r='5' fill='{dark}'/>"
           (document "<circle r='5' fill='#2F2E2E'/>") eq_refl).
Defined.

Lemma scan_stop (s : string) : scan Stop s = [].
Proof. induction s as [|c s IH]; [reflexivity|]. rewrite scan_cons. exact IH. Qed.

Lemma scan_single_closing (rest : string) :
  starts_with "}" rest = false ->
  scan Txt (String rbrace rest)
  = [Bad (ValueError "Single '}' encountered in format string")].
Proof.
  intros H. rewrite scan_cons. cbn [step fst snd app].
  change (Ascii.eqb rbrace lbrace) with false.
  change (Ascii.eqb rbrace rbrace) with true. cbn [fst snd app].
  destruct rest as [|c rest]; [reflexivity|].
  rewrite scan_cons. cbn [step].
  cbn [starts_with] in H. rewrite andb_true_r, Ascii.eqb_sym in H.
  change (Ascii.eqb c rbrace = false) in H.
  rewrite H. cbn [fst snd app]. now rewrite scan_stop.
Qed.

(** X8: text without braces followed by a closing brace that is not
    doubled, or ending with an opening brace, makes [generate_svg] raise
    ValueError, whatever else the fragment holds. *)
Theorem single_brace_raises_ValueError
    (extended : string -> string -> option ascii -> string -> result string)
    (device_name s rest : string) :
  plain s = true -> starts_with "}" rest = false ->
  generate_svg extended device_name (s ++ "}" ++ rest)
  = Raise (ValueError "Single '}' encountered in format string") /\
  generate_svg extended device_name (s ++ "{")
  = Raise (ValueError "Single '{' encountered in format string").
Proof.
  intros Hs Hr. rewrite !generate_svg_unfold. unfold format, MarkupIterator.
  rewrite !(scan_plain s _ Hs), !build_literal.
  change ("}" ++ rest) with (String rbrace rest).
  rewrite (scan_single_closing rest Hr). split; reflexivity.
Qed.

Lemma single_brace_raises_ValueError_witness :
  generate_svg Run.bare_only "fan"
    ("<style>circle " ++ "}" ++ " fill: {teal} </style>")
  = Raise (ValueError "Single '}' encountered in format string") /\
  generate_svg Run.bare_only "fan" ("<style>circle " ++ "{")
  = Raise (ValueError "Single '{' encountered in format string").
Proof.
  exact (single_brace_raises_ValueError Run.bare_only "fan" "<style>circle "
           " fill: {teal} </style>" eq_refl eq_refl).
Defined.

End Braces.

(** ** What every run keeps to, whatever the world does *)

Module Discipline.
Import Renderer Orchestrator Catalog Run.

Definition outcome (o : option exn) : result unit :=
  match o with None => Ok tt | Some e => Raise e end.

Definition created_line (sz : string * Z) : string :=
  "  Created " ++ fst sz ++ ".png (" ++ str_int (snd sz) ++ "x"
  ++ str_int (snd sz) ++ ")".

Definition failed_line (sz : string * Z) (text : string) : string :=
  "  ERROR creating " ++ fst sz ++ ".png: " ++ text.

(** The ways one conversion can go: the entries it adds to the trace and
    how it ends. *)
Inductive attempt (c : call) (sz : string * Z) : result unit -> trace -> Prop :=
| attempt_created :
    attempt c sz (Ok tt) [(c, None); (print (created_line sz), None)]
| attempt_created_unprinted (e : exn) :
    is_CalledProcessError e = false ->
    attempt c sz (Raise e) [(c, None); (print (created_line sz), Some e)]
| attempt_created_caught (returncode : Z) (text : string) (o : option exn) :
    attempt c sz (outcome o)
      [(c, None);
       (print (created_line sz), Some (CalledProcessError returncode text));
       (print (failed_line sz text), o)]
| attempt_failed (returncode : Z) (text : string) (o : option exn) :
    attempt c sz (outcome o)
      [(c, Some (CalledProcessError returncode text));
       (print (failed_line sz text), o)]
| attempt_not_started (e : exn) :
    is_CalledProcessError e = false ->
    attempt c sz (Raise e) [(c, Some e)].

Section Holds.

Variable extended : string -> string -> option ascii -> string -> result string.
Variable script : string.
Variable w : world.

Lemma convert_attempt (name : string) (sz : string * Z) (tr : trace) :
  exists r d,
    convert w (images_path_of script name) (svg_file_of script name) sz tr
    = (r, (tr ++ d)%list) /\
    attempt (conversion script name sz) sz r d.
Proof.
  destruct sz as [size_name size].
  unfold convert, try_except_CalledProcessError, bind, conversion.
  cbn [fst snd]. fold (png_file_of script name size_name).
  set (c := subprocess_run _).
  change ("  Created " ++ size_name ++ ".png (" ++ str_int size ++ "x"
          ++ str_int size ++ ")") with (created_line (size_name, size)).
  rewrite do_eq. destruct (w tr c) as [e|] eqn:E.
  - destruct e;
      try (eexists _, _; split; [reflexivity|];
           now apply attempt_not_started).
    rewrite do_eq.
    change ("  ERROR creating " ++ size_name ++ ".png: " ++ text)
      with (failed_line (size_name, size) text).
    rewrite <- app_assoc. eexists _, _. split; [|apply attempt_failed].
    reflexivity.
  - rewrite do_eq.
    match goal with |- context [w ?t ?p] => destruct (w t p) as [e|] eqn:E2 end.
    + destruct e;
        try (rewrite <- app_assoc; eexists _, _; split; [reflexivity|];
             now apply attempt_created_unprinted).
      rewrite do_eq.
      change ("  ERROR creating " ++ size_name ++ ".png: " ++ text)
        with (failed_line (size_name, size) text).
      rewrite <- !app_assoc. eexists _, _.
      split; [|apply attempt_created_caught].
      reflexivity.
    + rewrite <- app_assoc. eexists _, _. split; [reflexivity|].
      apply attempt_created.
Qed.

(** [I r d]: a property of how a piece of the run ended and of the
    entries it added, kept by putting pieces in sequence. *)
Variable I : result unit -> trace -> Prop.

Definition holds (m : M unit) : Prop :=
  forall tr, exists r d, m tr = (r, (tr ++ d)%list) /\ I r d.

Hypothesis I_nil : I (Ok tt) [].
Hypothesis I_seq : forall d1 d2 r, I (Ok tt) d1 -> I r d2 -> I r (d1 ++ d2)%list.

Lemma holds_ret : holds (ret tt).
Proof. intros tr. exists (Ok tt), []. now rewrite app_nil_r. Qed.

Lemma holds_bind (m k : M unit) : holds m -> holds k -> holds (m ;; k).
Proof.
  intros Hm Hk tr. unfold bind.
  destruct (Hm tr) as (r1 & d1 & E1 & P1). rewrite E1.
  destruct r1 as [[]|e].
  - destruct (Hk (tr ++ d1)%list) as (r2 & d2 & E2 & P2). rewrite E2.
    exists r2, (d1 ++ d2)%list. rewrite app_assoc. auto.
  - exists (Raise e), d1. auto.
Qed.

Lemma holds_for_each {A} (body : A -> M unit) (xs : list A) :
  (forall x, In x xs -> holds (body x)) -> holds (for_each xs body).
Proof.
  induction xs as [|x xs IH]; intros H; simpl.
  - apply holds_ret.
  - apply holds_bind; [apply H; now left|].
    apply IH. intros y Hy. apply H. now right.
Qed.

Lemma holds_lift (text : string) (k : string -> M unit) :
  holds (k text) -> holds (x <- lift (Ok text) ;; k x).
Proof. intros H tr. exact (H tr). Qed.

Hypothesis I_call : forall c o,
  (forall argv, c <> subprocess_run argv) -> I (outcome o) [(c, o)].
Hypothesis I_attempt : forall name sz r d,
  attempt (conversion script name sz) sz r d -> I r d.

Lemma holds_do (c : call) :
  (forall argv, c <> subprocess_run argv) -> holds (do w c).
Proof.
  intros Hc tr. rewrite do_eq. exists (outcome (w tr c)), [(c, w tr c)].
  split; [reflexivity|]. now apply I_call.
Qed.

Lemma holds_convert (name : string) (sz : string * Z) :
  holds (convert w (images_path_of script name) (svg_file_of script name) sz).
Proof.
  intros tr. destruct (convert_attempt name sz tr) as (r & d & E & A).
  exists r, d. split; [exact E|]. exact (I_attempt name sz r d A).
Qed.

Lemma holds_generate (icon : string * string) :
  is_Ok (generate_svg extended (fst icon) (snd icon)) = true ->
  holds (generate extended script w icon).
Proof.
  destruct icon as [name frag]. cbn [fst snd]. intros H.
  unfold generate. cbv zeta.
  destruct (generate_svg extended name frag) as [text|e]; [clear H|discriminate].
  fold (svg_file_of script name).
  apply holds_bind; [apply holds_do; discriminate|].
  apply holds_lift.
  apply holds_bind; [apply holds_do; discriminate|].
  apply holds_bind; [apply holds_do; discriminate|].
  apply holds_bind; [|apply holds_do; discriminate].
  apply holds_for_each. intros sz _. apply holds_convert.
Qed.

(** A property kept by every call and every conversion is kept by the
    whole run. *)
Lemma holds_main : holds (main extended script w).
Proof.
  unfold main, main_over. apply holds_for_each. intros icon Hin.
  apply holds_generate. pose proof catalog_clean as H.
  rewrite forallb_forall in H.
  now rewrite (generate_svg_clean extended _ _ (H _ Hin)).
Qed.

End Holds.

(** *** Exceptions *)

(** A call that returned, or raised a CalledProcessError. *)
Definition settled (x : call * option exn) : bool :=
  match snd x with
  | None => true
  | Some e => is_CalledProcessError e
  end.

Definition ends_at_last_call (r : result unit) (d : trace) : Prop :=
  match r with
  | Ok _ => forallb settled d = true
  | Raise e =>
      exists d' c, d = (d' ++ [(c, Some e)])%list /\ forallb settled d' = true
  end.

Lemma ends_at_last_call_seq (d1 d2 : trace) (r : result unit) :
  ends_at_last_call (Ok tt) d1 -> ends_at_last_call r d2 ->
  ends_at_last_call r (d1 ++ d2)%list.
Proof.
  destruct r as [[]|e]; simpl; intros H1 H2.
  - now rewrite forallb_app, H1, H2.
  - destruct H2 as (d' & c & -> & H2). exists (d1 ++ d')%list, c.
    rewrite app_assoc, forallb_app, H1, H2. auto.
Qed.

Lemma ends_at_last_call_call (c : call) (o : option exn) :
  ends_at_last_call (outcome o) [(c, o)].
Proof. destruct o as [e|]; simpl; [|reflexivity]. now exists [], c. Qed.

Lemma ends_at_last_call_attempt (c : call) (sz : string * Z)
    (r : result unit) (d : trace) :
  attempt c sz r d -> ends_at_last_call r d.
Proof.
  intros [ |e He|returncode text o|returncode text o|e He].
  - reflexivity.
  - now exists [(c, None)], (print (created_line sz)).
  - destruct o as [e|]; simpl; [|reflexivity].
    now eexists [_; _], _.
  - destruct o as [e|]; simpl; [|reflexivity].
    now eexists [_], _.
  - now exists [], c.
Qed.

(** X9: a run ends with an exception only when its last call raised it;
    every call before the last one returned or raised a
    CalledProcessError, which was caught.  On the catalog, [main] raises
    nothing of its own. *)
Theorem run_ends_at_the_raising_call
    (extended : string -> string -> option ascii -> string -> result string)
    (script : string) (w : world) :
  exists r tr,
    main extended script w [] = (r, tr) /\
    match r with
    | Ok _ => forallb settled tr = true
    | Raise e =>
        exists tr' c,
          tr = (tr' ++ [(c, Some e)])%list /\ forallb settled tr' = true
    end.
Proof.
  destruct (holds_main extended script w ends_at_last_call eq_refl
              ends_at_last_call_seq
              (fun c o _ => ends_at_last_call_call c o)
              (fun name sz r d H => ends_at_last_call_attempt _ sz r d H) [])
    as (r & d & E & H).
  exists r, d. auto.
Qed.

(** *** Reports *)

(** [ends_with suffix s]: Python's [s.endswith(suffix)]. *)
Fixpoint ends_with (suffix s : string) : bool :=
  String.eqb suffix s ||
  match s with
  | EmptyString => false
  | String _ r => ends_with suffix r
  end.

Lemma ends_with_refl (s : string) : ends_with s s = true.
Proof. destruct s; simpl; now rewrite ?Ascii.eqb_refl, ?String.eqb_refl. Qed.

Lemma ends_with_cons (t : string) (c : ascii) (s : string) :
  ends_with t s = true -> ends_with t (String c s) = true.
Proof. intros H. cbn [ends_with]. rewrite H. apply orb_true_r. Qed.

Lemma ends_with_app (t a s : string) :
  ends_with t s = true -> ends_with t (a ++ s) = true.
Proof.
  intros H. induction a as [|c a IH]; [exact H|].
  cbn [append]. now apply ends_with_cons.
Qed.

(** The line that follows an attempt tells how it went: with the
    dimensions asked for when it returned, with the message of the
    exception when the rasterizer exited with a non-zero status. *)
Definition report_matches (argv : list string) (o : option exn) (next : call) : bool :=
  match next with
  | print line =>
      match o with
      | None =>
          starts_with "  Created " line &&
          ends_with ("(" ++ nth 2 argv "" ++ "x" ++ nth 4 argv "" ++ ")") line
      | Some (CalledProcessError _ text) =>
          starts_with "  ERROR creating " line && ends_with (".png: " ++ text) line
      | Some _ => false
      end
  | _ => false
  end.

(** Every attempt of the trace is followed by its report; only an attempt
    that raised something else than CalledProcessError may come last, and
    that only when [may_end_raising]. *)
Fixpoint reported (may_end_raising : bool) (tr : trace) : bool :=
  match tr with
  | [] => true
  | (subprocess_run argv, o) :: rest =>
      match rest with
      | [] =>
          may_end_raising &&
          match o with
          | Some e => negb (is_CalledProcessError e)
          | None => false
          end
      | next :: _ => report_matches argv o (fst next) && reported may_end_raising rest
      end
  | _ :: rest => reported may_end_raising rest
  end.

Definition well_reported (r : result unit) (d : trace) : Prop :=
  reported (negb (is_Ok r)) d = true.

Lemma reported_app (b : bool) (d1 d2 : trace) :
  reported false d1 = true -> reported b d2 = true ->
  reported b (d1 ++ d2)%list = true.
Proof.
  intros H1 H2. induction d1 as [|[c o] d1 IH]; [exact H2|].
  destruct c; try exact (IH H1).
  cbn [app]. cbn [reported] in H1 |- *.
  destruct d1 as [|next d1]; [discriminate|].
  apply andb_true_iff in H1 as [Hm Hr].
  cbn [app] in *. rewrite Hm. exact (IH Hr).
Qed.

Lemma well_reported_seq (d1 d2 : trace) (r : result unit) :
  well_reported (Ok tt) d1 -> well_reported r d2 -> well_reported r (d1 ++ d2)%list.
Proof. unfold well_reported. apply reported_app. Qed.

Lemma well_reported_call (c : call) (o : option exn) :
  (forall argv, c <> subprocess_run argv) -> well_reported (outcome o) [(c, o)].
Proof.
  intros Hc. unfold well_reported.
  destruct c; try reflexivity. now destruct (Hc argv).
Qed.

Lemma created_line_matches (size : Z) (svg png : string) (sz : string * Z) :
  snd sz = size ->
  report_matches (rsvg_convert size svg png) None (print (created_line sz)) = true.
Proof.
  intros <-. unfold report_matches, created_line, rsvg_convert. cbn [nth].
  apply andb_true_iff. split; [reflexivity|].
  apply ends_with_app, ends_with_app.
  do 5 apply ends_with_cons. apply ends_with_refl.
Qed.

Lemma failed_line_matches (argv : list string) (sz : string * Z)
    (returncode : Z) (text : string) :
  report_matches argv (Some (CalledProcessError returncode text))
    (print (failed_line sz text)) = true.
Proof.
  unfold report_matches, failed_line.
  apply andb_true_iff. split; [reflexivity|].
  apply ends_with_app, ends_with_app, ends_with_refl.
Qed.

Lemma well_reported_attempt (script name : string) (sz : string * Z)
    (r : result unit) (d : trace) :
  attempt (conversion script name sz) sz r d -> well_reported r d.
Proof.
  unfold well_reported, conversion.
  intros [ |e He|returncode text o|returncode text o|e He];
    cbn [reported fst];
    rewrite ?created_line_matches, ?failed_line_matches by reflexivity;
    try reflexivity.
  - now rewrite He.
Qed.

(** X10: in every run, each attempt to convert is followed by its report:
    a Created line with the dimensions asked for when the rasterizer
    returned, an ERROR line ending with the message of the exception when
    it exited with a non-zero status.  Only an attempt that raised
    something else has no report, it is the last call of a run that ends
    with that exception. *)
Theorem attempts_are_reported
    (extended : string -> string -> option ascii -> string -> result string)
    (script : string) (w : world) :
  exists r tr,
    main extended script w [] = (r, tr) /\
    reported (negb (is_Ok r)) tr = true.
Proof.
  destruct (holds_main extended script w well_reported eq_refl
              well_reported_seq well_reported_call
              (fun name sz r d H => well_reported_attempt script name sz r d H) [])
    as (r & d & E & H).
  exists r, d. auto.
Qed.

End Discipline.

(** ** The intermediate files *)

Module Intermediate.
Import Renderer Orchestrator Catalog Run Discipline.

(** The files written so far have been removed, but possibly the last
    one; all of them when the piece of the run returned. *)
Definition at_most_one_left (r : result unit) (d : trace) : Prop :=
  (written (calls d) = removed (calls d) \/
   exists p, written (calls d) = (removed (calls d) ++ [p])%list) /\
  (r = Ok tt -> written (calls d) = removed (calls d)).

Lemma written_app (a b : trace) :
  written (calls (a ++ b)%list) = (written (calls a) ++ written (calls b))%list.
Proof. unfold written, calls. now rewrite map_app, flat_map_app. Qed.

Lemma removed_app (a b : trace) :
  removed (calls (a ++ b)%list) = (removed (calls a) ++ removed (calls b))%list.
Proof. unfold removed, calls. now rewrite map_app, flat_map_app. Qed.

Lemma at_most_one_left_seq (d1 d2 : trace) (r : result unit) :
  at_most_one_left (Ok tt) d1 -> at_most_one_left r d2 ->
  at_most_one_left r (d1 ++ d2)%list.
Proof.
  intros [_ H1] [H2 H3]. specialize (H1 eq_refl).
  unfold at_most_one_left. rewrite written_app, removed_app, H1. split.
  - destruct H2 as [H2|[p H2]]; rewrite H2; [now left|right].
    exists p. now rewrite app_assoc.
  - intros Hr. now rewrite (H3 Hr).
Qed.

Lemma written_steps (tr : trace) : written (steps tr) = written (calls tr).
Proof. now apply flat_map_steps. Qed.

Section Icon.

Variable extended : string -> string -> option ascii -> string -> result string.
Variable script : string.
Variable w : world.

Lemma generate_at_most_one_left (icon : string * string) :
  is_Ok (generate_svg extended (fst icon) (snd icon)) = true ->
  holds at_most_one_left (generate extended script w icon).
Proof.
  intros H tr.
  destruct (follows_generate extended script w icon H tr)
    as (r & d & E & [rest P] & F & _).
  exists r, d. split; [exact E|].
  unfold at_most_one_left. rewrite <- written_steps, <- removed_steps. split.
  - unfold icon_plan in P.
    destruct (steps d) as [|x1 [|x2 [|x3 [|x4 [|x5 [|x6 [|x7 [|x8 l]]]]]]]];
      cbn [app] in P; inversion P; subst; cbn;
      solve [now left | right; eexists; reflexivity].
  - intros Hr. rewrite (F Hr). reflexivity.
Qed.

End Icon.

(** X11: however a run ends, every icon.svg it wrote has been removed,
    except possibly the one of the icon it was working on; a run that
    returns has removed them all. *)
Theorem at_most_one_svg_is_left
    (extended : string -> string -> option ascii -> string -> result string)
    (script : string) (w : world) :
  exists r tr,
    main extended script w [] = (r, tr) /\
    (written (calls tr) = removed (calls tr) \/
     exists p, written (calls tr) = (removed (calls tr) ++ [p])%list) /\
    (r = Ok tt -> written (calls tr) = removed (calls tr)).
Proof.
  assert (H : holds at_most_one_left (main extended script w)).
  { unfold main, main_over.
    apply (holds_for_each at_most_one_left).
    - split; [now left|reflexivity].
    - exact at_most_one_left_seq.
    - intros icon Hin. apply generate_at_most_one_left.
      pose proof catalog_clean as Hc. rewrite forallb_forall in Hc.
      now rewrite (generate_svg_clean extended _ _ (Hc _ Hin)). }
  destruct (H []) as (r & d & E & A). exists r, d. split; [exact E|exact A].
Qed.

Lemma at_most_one_svg_is_left_witness :
  exists r tr,
    main bare_only sample_script large_unstartable [] = (r, tr) /\
    (written (calls tr) = removed (calls tr) \/
     exists p, written (calls tr) = (removed (calls tr) ++ [p])%list) /\
    (r = Ok tt -> written (calls tr) = removed (calls tr)).
Proof.
  exact (at_most_one_svg_is_left bare_only sample_script large_unstartable).
Defined.

End Intermediate.

(** ** Other catalogs *)

Module AnyCatalog.
Import Renderer Orchestrator Run.

(** X12: the loop does not depend on what the catalog holds: over any
    catalog whose fragments are text and the two placeholders, from any
    point of a run in which only exit statuses go wrong, it returns after
    the seven steps of each icon, in the order of the catalog. *)
Theorem clean_catalog_is_processed
    (extended : string -> string -> option ascii -> string -> result string)
    (script : string) (w : world) (icons : list (string * string)) (tr : trace) :
  forallb (fun icon => clean (snd icon)) icons = true ->
  tool_exit_only w ->
  exists d,
    main_over extended script w icons tr = (Ok tt, (tr ++ d)%list) /\
    steps d = flat_map (icon_plan extended script) icons.
Proof.
  intros Hc Hw.
  destruct (follows_main_over extended script w icons Hc tr)
    as (r & d & E & _ & F & B).
  rewrite (B Hw) in *. exists d. split; [exact E|exact (F eq_refl)].
Qed.

Lemma clean_catalog_is_processed_witness :
  let icons := [("bulb", "<circle r='9' fill='{teal}'/>"); ("plug", "{dark}{{}}")] in
  exists d,
    main_over bare_only sample_script large_fails icons
      [(print "starting", None)]
    = (Ok tt, ([(print "starting", None)] ++ d)%list) /\
    steps d = flat_map (icon_plan bare_only sample_script) icons.
Proof.
  intros icons.
  exact (clean_catalog_is_processed bare_only sample_script large_fails icons
           [(print "starting", None)] eq_refl large_fails_tool_exit_only).
Defined.

End AnyCatalog.

(** ** When the rasterizer fails *)

Module Failures.
Import Renderer Orchestrator Catalog Run Discipline Intermediate.

(** In this world no call raises but the one that runs the rasterizer:
    with CalledProcessError when it exits with a non-zero status, with
    anything else (an OSError) when it cannot be started. *)
Definition only_rasterizer_fails (w : world) : Prop :=
  forall tr c e, w tr c = Some e -> exists argv, c = subprocess_run argv.

Lemma tool_exit_only_rasterizer (w : world) :
  tool_exit_only w -> only_rasterizer_fails w.
Proof. intros H tr c e E. exact (proj1 (H tr c e E)). Qed.

Section Goes.

Variable extended : string -> string -> option ascii -> string -> result string.
Variable script : string.
Variable w : world.
Hypothesis Hw : only_rasterizer_fails w.

(** How a piece of the run that started from [tr] and raised [e] has
    ended: with an attempt to run the rasterizer that the world answered
    by [e], which is no CalledProcessError; the calls before it returned
    or raised a CalledProcessError. *)
Definition stopped (tr : trace) (e : exn) (d : trace) : Prop :=
  is_CalledProcessError e = false /\
  exists d' argv,
    d = (d' ++ [(subprocess_run argv, Some e)])%list /\
    w (tr ++ d')%list (subprocess_run argv) = Some e /\
    forallb settled d' = true.

(** [goes m p]: from any trace, [m] takes the steps of [p] in order; it
    returns after all of them unless the rasterizer could not be started,
    and then it stops there. *)
Definition goes (m : M unit) (p : list call) : Prop :=
  forall tr, exists r d,
    m tr = (r, (tr ++ d)%list) /\
    (exists rest, p = (steps d ++ rest)%list) /\
    match r with
    | Ok _ => steps d = p /\ forallb settled d = true
    | Raise e => stopped tr e d
    end.

Lemma goes_ret : goes (ret tt) [].
Proof.
  intros tr. exists (Ok tt), []. rewrite app_nil_r.
  split; [reflexivity|]. split; [now exists []|]. split; reflexivity.
Qed.

Lemma returns (c : call) (tr : trace) :
  (forall argv, c <> subprocess_run argv) -> w tr c = None.
Proof.
  intros Hc. destruct (w tr c) as [e|] eqn:E; [|reflexivity].
  destruct (Hw _ _ _ E) as [argv ->]. now destruct (Hc argv).
Qed.

Lemma goes_do (c : call) :
  is_report c = false -> (forall argv, c <> subprocess_run argv) ->
  goes (do w c) [c].
Proof.
  intros Hp Hc tr. rewrite do_eq, (returns c tr Hc).
  exists (Ok tt), [(c, None)]. split; [reflexivity|].
  unfold steps, calls. cbn [map fst filter]. rewrite Hp. cbn [negb].
  split; [now exists []|]. split; reflexivity.
Qed.

Lemma goes_bind (m k : M unit) (p q : list call) :
  goes m p -> goes k q -> goes (m ;; k) (p ++ q)%list.
Proof.
  intros Hm Hk tr. unfold bind.
  destruct (Hm tr) as (r1 & d1 & E1 & [rest1 P1] & Q1). rewrite E1.
  destruct r1 as [[]|e].
  - destruct Q1 as [S1 T1].
    destruct (Hk (tr ++ d1)%list) as (r2 & d2 & E2 & [rest2 P2] & Q2).
    rewrite E2. exists r2, (d1 ++ d2)%list. rewrite app_assoc.
    split; [reflexivity|]. rewrite steps_app, S1. split.
    + exists rest2. rewrite <- app_assoc. now f_equal.
    + destruct r2 as [[]|e2].
      * destruct Q2 as [S2 T2]. split; [now rewrite S2|].
        now rewrite forallb_app, T1, T2.
      * destruct Q2 as (He & d' & argv & -> & Hd & T2). split; [exact He|].
        exists (d1 ++ d')%list, argv. rewrite <- !app_assoc in *.
        split; [reflexivity|]. split; [exact Hd|].
        now rewrite forallb_app, T1, T2.
  - exists (Raise e), d1. split; [reflexivity|]. split; [|exact Q1].
    exists (rest1 ++ q)%list. rewrite app_assoc. now f_equal.
Qed.

Lemma goes_for_each {A} (body : A -> M unit) (f : A -> list call) (xs : list A) :
  (forall x, In x xs -> goes (body x) (f x)) ->
  goes (for_each xs body) (flat_map f xs).
Proof.
  induction xs as [|x xs IH]; intros H; simpl.
  - apply goes_ret.
  - apply goes_bind; [apply H; now left|].
    apply IH. intros y Hy. apply H. now right.
Qed.

Lemma goes_lift (text : string) (k : string -> M unit) (p : list call) :
  goes (k text) p -> goes (x <- lift (Ok text) ;; k x) p.
Proof. intros H tr. exact (H tr). Qed.

(** One conversion: a non-zero exit status is reported and the conversion
    returns; a rasterizer that does not start ends it. *)
Lemma goes_convert (name : string) (sz : string * Z) :
  goes (convert w (images_path_of script name) (svg_file_of script name) sz)
       [conversion script name sz].
Proof.
  destruct sz as [size_name size]. intros tr.
  unfold convert, try_except_CalledProcessError, bind, conversion.
  cbn [fst snd]. fold (png_file_of script name size_name).
  set (argv := rsvg_convert _ _ _).
  rewrite do_eq. destruct (w tr (subprocess_run argv)) as [e|] eqn:E.
  - assert (Stop : is_CalledProcessError e = false ->
                   stopped tr e [(subprocess_run argv, Some e)]).
    { intros He. split; [exact He|]. exists [], argv.
      rewrite app_nil_r. auto. }
    destruct e;
      try (eexists _, _; split; [reflexivity|];
           split; [now exists []|]; now apply Stop).
    rewrite do_eq, returns by discriminate.
    rewrite <- app_assoc. eexists _, _. split; [reflexivity|].
    split; [now exists []|]. split; reflexivity.
  - rewrite do_eq, returns by discriminate.
    rewrite <- app_assoc. eexists _, _. split; [reflexivity|].
    split; [now exists []|]. split; reflexivity.
Qed.

Lemma goes_generate (icon : string * string) :
  is_Ok (generate_svg extended (fst icon) (snd icon)) = true ->
  goes (generate extended script w icon) (icon_plan extended script icon).
Proof.
  destruct icon as [name frag]. unfold icon_plan, svg_text. cbn [fst snd].
  intros H. unfold generate. cbv zeta.
  destruct (generate_svg extended name frag) as [text|e]; [clear H|discriminate].
  fold (svg_file_of script name).
  apply (goes_bind _ _ [_] [_; _; _; _; _; _]).
  { apply goes_do; [reflexivity|discriminate]. }
  apply goes_lift.
  apply (goes_bind _ _ [_] [_; _; _; _; _]).
  { apply goes_do; [reflexivity|discriminate]. }
  apply (goes_bind _ _ [_] [_; _; _; _]).
  { apply goes_do; [reflexivity|discriminate]. }
  apply (goes_bind _ _ [_; _; _] [_]).
  { apply (goes_for_each _ (fun sz => [conversion script name sz]) sizes).
    intros sz _. apply goes_convert. }
  apply goes_do; [reflexivity|discriminate].
Qed.

Lemma catalog_icon_renders (icon : string * string) :
  In icon DEVICE_ICONS ->
  is_Ok (generate_svg extended (fst icon) (snd icon)) = true.
Proof.
  intros Hin. pose proof catalog_clean as H. rewrite forallb_forall in H.
  now rewrite (generate_svg_clean extended _ _ (H _ Hin)).
Qed.

Lemma goes_main :
  goes (main extended script w) (plan extended script DEVICE_ICONS).
Proof.
  unfold main, main_over, plan. apply goes_for_each.
  intros icon Hin. apply goes_generate. now apply catalog_icon_renders.
Qed.

(** What is written and removed by the piece of a run for one icon: the
    same, when it returns; when the rasterizer does not start, the file
    it was given has been written and is not removed. *)
Definition left_behind (r : result unit) (d : trace) : Prop :=
  match r with
  | Ok _ => written (calls d) = removed (calls d)
  | Raise e =>
      exists d' argv,
        d = (d' ++ [(subprocess_run argv, Some e)])%list /\
        written (calls d) = (removed (calls d) ++ [nth 5 argv ""])%list
  end.

Lemma left_behind_seq (d1 d2 : trace) (r : result unit) :
  left_behind (Ok tt) d1 -> left_behind r d2 -> left_behind r (d1 ++ d2)%list.
Proof.
  destruct r as [[]|e]; cbn [left_behind]; intros H1 H2.
  - now rewrite written_app, removed_app, H1, H2.
  - destruct H2 as (d' & argv & -> & H2). exists (d1 ++ d')%list, argv.
    split; [now rewrite app_assoc|].
    now rewrite written_app, removed_app, H1, H2, app_assoc.
Qed.

Lemma generate_left_behind (icon : string * string) :
  is_Ok (generate_svg extended (fst icon) (snd icon)) = true ->
  holds left_behind (generate extended script w icon).
Proof.
  intros H tr.
  destruct (goes_generate icon H tr) as (r & d & E & [rest P] & Q).
  exists r, d. split; [exact E|]. destruct r as [[]|e]; cbn [left_behind].
  - destruct Q as [S _]. rewrite <- written_steps, <- removed_steps, S.
    reflexivity.
  - destruct Q as (_ & d' & argv & -> & _ & _). exists d', argv.
    split; [reflexivity|].
    rewrite <- written_steps, <- removed_steps. rewrite steps_app in *.
    change (steps [(subprocess_run argv, Some e)]) with [subprocess_run argv] in *.
    unfold icon_plan, conversion in P.
    destruct (steps d') as [|x1 [|x2 [|x3 [|x4 [|x5 [|x6 [|x7 l]]]]]]];
      cbn [app] in P; inversion P; subst; try reflexivity.
    destruct l; discriminate.
Qed.

Lemma main_left_behind : holds left_behind (main extended script w).
Proof.
  unfold main, main_over. apply (holds_for_each left_behind).
  - reflexivity.
  - exact left_behind_seq.
  - intros icon Hin. apply generate_left_behind. now apply catalog_icon_renders.
Qed.

End Goes.

(** In a trace whose calls all returned or raised CalledProcessError but
    possibly the last, an attempt that raised something else is the last
    call and its exception the result. *)
Lemma start_failure_is_last (r : result unit) (tr : trace) :
  match r with
  | Ok _ => forallb settled tr = true
  | Raise e' =>
      exists tr' argv',
        tr = (tr' ++ [(subprocess_run argv', Some e')])%list /\
        forallb settled tr' = true
  end ->
  forall argv e,
    In (subprocess_run argv, Some e) tr ->
    is_CalledProcessError e = false -> r = Raise e.
Proof.
  intros H argv e Hin He.
  assert (Hs : forall l, forallb settled l = true ->
                         In (subprocess_run argv, Some e) l -> False).
  { intros l Hl Hi. rewrite forallb_forall in Hl. specialize (Hl _ Hi).
    unfold settled in Hl. cbn [snd] in Hl. congruence. }
  destruct r as [[]|e'].
  - destruct (Hs tr H Hin).
  - destruct H as (tr' & argv' & -> & H). apply in_app_or in Hin.
    destruct Hin as [Hin|[Hin|[]]]; [destruct (Hs tr' H Hin)|].
    now inversion Hin.
Qed.

(** The rasterizer exits with status 1 on every 75-pixel image and cannot
    be started for the 1000-pixel ones. *)
Definition flaky : world :=
  fun _ c =>
    match c with
    | subprocess_run argv =>
        if is_size "75" argv
        then Some (CalledProcessError 1 "Command returned non-zero exit status 1.")
        else if is_size "1000" argv
        then Some (OSError "[Errno 2] No such file or directory: 'rsvg-convert'")
        else None
    | _ => None
    end.

Lemma flaky_only_rasterizer_fails : only_rasterizer_fails flaky.
Proof. intros tr c e H. destruct c; try discriminate. eauto. Defined.

(** C1, amended: in a world where nothing fails but the rasterizer, a
    non-zero exit status does not end the run: the exception is caught, the
    attempt is followed by its ERROR report, and a run with such failures
    only returns after an attempt for every size of every icon.  A
    rasterizer that cannot be started is not caught: the run ends with
    that exception at that attempt, which is its last call. *)
Theorem exit_failures_are_skipped_start_failures_end_the_run
    (extended : string -> string -> option ascii -> string -> result string)
    (script : string) (w : world) :
  only_rasterizer_fails w ->
  exists r tr,
    main extended script w [] = (r, tr) /\
    (tool_exit_only w -> r = Ok tt) /\
    reported (negb (is_Ok r)) tr = true /\
    (forall argv e,
        In (subprocess_run argv, Some e) tr ->
        is_CalledProcessError e = false -> r = Raise e) /\
    match r with
    | Ok _ =>
        forallb settled tr = true /\
        run_args (calls tr) = all_conversions script
    | Raise e =>
        is_CalledProcessError e = false /\
        exists tr' argv,
          tr = (tr' ++ [(subprocess_run argv, Some e)])%list /\
          w tr' (subprocess_run argv) = Some e /\
          forallb settled tr' = true
    end.
Proof.
  intros Hw.
  destruct (goes_main extended script w Hw []) as (r & tr & E & _ & Q).
  cbn [app] in E. exists r, tr. split; [exact E|].
  assert (Hlast : match r with
                  | Ok _ => forallb settled tr = true
                  | Raise e' =>
                      exists tr' argv',
                        tr = (tr' ++ [(subprocess_run argv', Some e')])%list /\
                        forallb settled tr' = true
                  end).
  { destruct r as [[]|e]; [exact (proj2 Q)|].
    destruct Q as (_ & d' & argv & Hd & _ & Hs). eauto. }
  split; [|split; [|split]].
  - intros Hx. destruct r as [[]|e]; [reflexivity|].
    destruct Q as (He & d' & argv & _ & Hd & _).
    destruct (Hx _ _ _ Hd) as [_ (returncode & text & ->)]. discriminate.
  - destruct (holds_main extended script w well_reported eq_refl
                well_reported_seq well_reported_call
                (fun name sz r d H => well_reported_attempt script name sz r d H) [])
      as (r' & d & E' & H).
    cbn [app] in E'. rewrite E in E'. inversion E'; subst. exact H.
  - exact (start_failure_is_last r tr Hlast).
  - destruct r as [[]|e].
    + destruct Q as [S T]. split; [exact T|].
      rewrite <- run_args_steps, S. apply run_args_plan.
    + destruct Q as (He & d' & argv & Hd & Hwd & Hs). split; [exact He|].
      exists d', argv. auto.
Qed.

Lemma exit_failures_are_skipped_start_failures_end_the_run_witness :
  only_rasterizer_fails flaky /\
  exists r tr,
    main bare_only sample_script flaky [] = (r, tr) /\
    (tool_exit_only flaky -> r = Ok tt) /\
    reported (negb (is_Ok r)) tr = true /\
    (forall argv e,
        In (subprocess_run argv, Some e) tr ->
        is_CalledProcessError e = false -> r = Raise e) /\
    match r with
    | Ok _ =>
        forallb settled tr = true /\
        run_args (calls tr) = all_conversions sample_script
    | Raise e =>
        is_CalledProcessError e = false /\
        exists tr' argv,
          tr = (tr' ++ [(subprocess_run argv, Some e)])%list /\
          flaky tr' (subprocess_run argv) = Some e /\
          forallb settled tr' = true
    end.
Proof.
  split; [exact flaky_only_rasterizer_fails|].
  exact (exit_failures_are_skipped_start_failures_end_the_run bare_only
           sample_script flaky flaky_only_rasterizer_fails).
Defined.

(** C2, amended: in a world where nothing fails but the rasterizer, a run
    in which every failure is a non-zero exit status returns after, for
    every catalog entry in turn, making the directory, writing icon.svg,
    announcing the icon, attempting the three sizes and removing
    icon.svg.  A rasterizer that cannot be started ends the run at that
    attempt: the icon.svg it was given has been written and is not
    removed. *)
Theorem svg_is_removed_unless_the_rasterizer_does_not_start
    (extended : string -> string -> option ascii -> string -> result string)
    (script : string) (w : world) :
  only_rasterizer_fails w ->
  exists r tr,
    main extended script w [] = (r, tr) /\
    (tool_exit_only w -> r = Ok tt) /\
    (forall argv e,
        In (subprocess_run argv, Some e) tr ->
        is_CalledProcessError e = false -> r = Raise e) /\
    match r with
    | Ok _ =>
        steps tr = flat_map (icon_plan extended script) DEVICE_ICONS /\
        removed (calls tr)
        = map (fun icon => svg_file_of script (fst icon)) DEVICE_ICONS
    | Raise e =>
        is_CalledProcessError e = false /\
        exists tr' argv,
          tr = (tr' ++ [(subprocess_run argv, Some e)])%list /\
          w tr' (subprocess_run argv) = Some e /\
          written (calls tr) = (removed (calls tr) ++ [nth 5 argv ""])%list
    end.
Proof.
  intros Hw.
  destruct (goes_main extended script w Hw []) as (r & tr & E & _ & Q).
  cbn [app] in E. exists r, tr. split; [exact E|]. split; [|split].
  - intros Hx. destruct r as [[]|e]; [reflexivity|].
    destruct Q as (He & d' & argv & _ & Hd & _).
    destruct (Hx _ _ _ Hd) as [_ (returncode & text & ->)]. discriminate.
  - apply start_failure_is_last. destruct r as [[]|e]; [exact (proj2 Q)|].
    destruct Q as (_ & d' & argv & Hd & _ & Hs). eauto.
  - destruct r as [[]|e].
    + destruct Q as [S _]. split; [exact S|].
      rewrite <- removed_steps, S. apply removed_plan.
    + destruct Q as (He & d' & argv & Hd & Hwd & _). split; [exact He|].
      exists d', argv. split; [exact Hd|]. split; [exact Hwd|].
      destruct (main_left_behind extended script w Hw [])
        as (r' & d & E' & L).
      cbn [app] in E'. rewrite E in E'. inversion E'; subst r' d.
      destruct L as (d'' & argv' & Hd' & L). rewrite Hd in Hd'.
      apply app_inj_tail in Hd' as [_ Hd']. inversion Hd'; subst argv'.
      exact L.
Qed.

Lemma svg_is_removed_unless_the_rasterizer_does_not_start_witness :
  only_rasterizer_fails flaky /\
  exists r tr,
    main bare_only sample_script flaky [] = (r, tr) /\
    (tool_exit_only flaky -> r = Ok tt) /\
    (forall argv e,
        In (subprocess_run argv, Some e) tr ->
        is_CalledProcessError e = false -> r = Raise e) /\
    match r with
    | Ok _ =>
        steps tr = flat_map (icon_plan bare_only sample_script) DEVICE_ICONS /\
        removed (calls tr)
        = map (fun icon => svg_file_of sample_script (fst icon)) DEVICE_ICONS
    | Raise e =>
        is_CalledProcessError e = false /\
        exists tr' argv,
          tr = (tr' ++ [(subprocess_run argv, Some e)])%list /\
          flaky tr' (subprocess_run argv) = Some e /\
          written (calls tr) = (removed (calls tr) ++ [nth 5 argv ""])%list
    end.
Proof.
  split; [exact flaky_only_rasterizer_fails|].
  exact (svg_is_removed_unless_the_rasterizer_does_not_start bare_only
           sample_script flaky flaky_only_rasterizer_fails).
Defined.

(** The run in the world [flaky]: the exit status of the first attempt is
    reported, the second attempt succeeds, the third cannot start and
    ends the run with icon.svg in place. *)
Example flaky_run :
  let run := main bare_only sample_script flaky [] in
  fst run = Raise (OSError "[Errno 2] No such file or directory: 'rsvg-convert'") /\
  map (fun x => nth 2 x "") (run_args (calls (snd run))) = ["75"; "500"; "1000"] /\
  announced (calls (snd run))
  = [ "Created SVG for all-devices";
      "  ERROR creating small.png: Command returned non-zero exit status 1.";
      "  Created large.png (500x500)" ] /\
  written (calls (snd run)) = ["/repo/drivers/all-devices/assets/images/icon.svg"] /\
  removed (calls (snd run)) = [].
Proof. vm_compute. repeat split. Qed.

End Failures.
